(** * Public-Transport-Analysis: congestion cache, route evaluation,
      collector and alert engine

    A shallow embedding of [app.py], [Critical_Real/traffic_collector.py],
    [Critical_Real/traffic_alerts.py] and [Critical_Real/traffic_analyzer.py],
    followed by the properties of the specification that concern them.

    Conventions of the embedding.
    - Python numbers that hold speeds, delays and congestion scores are
      rationals ([Q]); arithmetic is exact.  [None] / JSON [null] is the
      [None] of an [option].
    - Python dictionaries keyed by strings are [gmap string _].
    - The outside world (HTTP endpoints, the clock, the SMTP server) is an
      oracle indexed by the number of calls made so far; module state that
      the code mutates is threaded explicitly. *)

From Stdlib Require Import ZArith QArith Qround Qminmax Qabs Lqa String Ascii List Sorted Lia.
From stdpp Require Import base gmap strings list pretty.

(* ===================================================================== *)
(** * Python built-ins used by the code                                   *)
(* ===================================================================== *)

(** A speed as the code holds it: a number or [None]. *)
Abbreviation SpeedVal := (option Q).

Definition Qltb (a b : Q) : bool := negb (Qle_bool b a).

(** Truthiness of a number-or-None ([if x] / [x and ...]). *)
Definition truthy (v : SpeedVal) : bool :=
  match v with
  | Some q => negb (Qeq_bool q 0)
  | None => false
  end.

(** [max(0, x)]: Python returns the first argument unless the second is
    strictly larger. *)
Definition max0 (x : Q) : Q := if Qltb 0 x then x else 0.

(** [min(a, b)] on integers. *)
Definition py_min (a b : Z) : Z := if (b <? a)%Z then b else a.

(** [int(x)]: truncation toward zero. *)
Definition py_int (x : Q) : Z := Z.quot (Qnum x) (Zpos (Qden x)).

(** Nearest integer, ties to the even neighbour. *)
Definition round_half_even (x : Q) : Z :=
  let f := Qfloor x in
  let r := (x - inject_Z f)%Q in
  if Qltb r (1 # 2) then f
  else if Qltb (1 # 2) r then (f + 1)%Z
  else if Z.even f then f else (f + 1)%Z.

(** [round(x, 2)]. *)
Definition round2 (x : Q) : Q := (inject_Z (round_half_even (x * 100)) / 100)%Q.

(** [sum(xs)]. *)
Definition py_sum (xs : list Q) : Q := fold_left Qplus xs 0%Q.

(** [sorted(xs, key=...)]: a stable sort.  [leb] is the order on keys;
    [reverse=True] is the same sort under the converse order. *)
Section Sorted.
Context {A K : Type} (leb : K -> K -> bool) (key : A -> K).

Fixpoint insert_by (x : A) (l : list A) : list A :=
  match l with
  | [] => [x]
  | y :: l' => if leb (key x) (key y) then x :: y :: l' else y :: insert_by x l'
  end.

Fixpoint py_sorted (l : list A) : list A :=
  match l with
  | [] => []
  | x :: l' => insert_by x (py_sorted l')
  end.
End Sorted.

(** [xs.index(x)]: position of the first occurrence ([None] stands for the
    [ValueError] the callers rule out with [x in xs]). *)
Fixpoint py_index (x : Z) (xs : list Z) : option nat :=
  match xs with
  | [] => None
  | y :: xs' => if (y =? x)%Z then Some 0%nat else S <$> py_index x xs'
  end.


(** [x in xs]. *)
Definition py_in (x : Z) (xs : list Z) : bool := existsb (Z.eqb x) xs.

(** [str.lower()] on ASCII text. *)
Definition lower_ascii (c : ascii) : ascii :=
  let n := nat_of_ascii c in
  if (65 <=? n)%nat && (n <=? 90)%nat then ascii_of_nat (n + 32) else c.

Fixpoint str_lower (s : string) : string :=
  match s with
  | EmptyString => EmptyString
  | String c s' => String (lower_ascii c) (str_lower s')
  end.

(** Exceptions that escape a function. *)
Inductive Result (A : Type) : Type :=
  | Ok (a : A)
  | Raise (exn : string).
Arguments Ok {A} a.
Arguments Raise {A} exn.

(** State and exceptions: a computation reads and updates a state [S] and
    either returns or raises; the state reached is kept in both cases. *)
Definition M (S A : Type) : Type := S -> Result A * S.

Definition ret {S A} (a : A) : M S A := fun s => (Ok a, s).

Definition bind {S A B} (m : M S A) (k : A -> M S B) : M S B :=
  fun s =>
    match m s with
    | (Ok a, s') => k a s'
    | (Raise e, s') => (Raise e, s')
    end.

Definition raise {S A} (e : string) : M S A := fun s => (Raise e, s).
Definition get_state {S} : M S S := fun s => (Ok s, s).
Definition modify {S} (f : S -> S) : M S unit := fun s => (Ok tt, f s).

Declare Scope py_scope.
Delimit Scope py_scope with py.
Notation "x <- m ;; k" := (bind m (fun x => k))
  (at level 100, m at next level, right associativity) : py_scope.
Notation "m ;;; k" := (bind m (fun _ => k))
  (at level 100, right associativity) : py_scope.

(* ===================================================================== *)
(** * HTTP as the code sees it                                            *)
(* ===================================================================== *)

(** A field of a JSON object: missing, [null], or a number. *)
Inductive Field : Type :=
  | Absent
  | JNull
  | JNum (q : Q).

Record FlowSegment : Type := {
  currentSpeed : Field;
  freeFlowSpeed : Field
}.

(** The decoded body of a response, a JSON object: the two keys the code
    looks at.  [flowSegmentData = Some _] is a non-empty object (truthy),
    [None] a missing key. *)
Record JsonDoc : Type := {
  flowSegmentData : option FlowSegment;
  incidents : option (list string)
}.

(** What one [requests.get] and the reading of its body do: a response
    with a status and a JSON body, a [requests.exceptions.RequestException]
    (time-out, connection failure), or any other exception. *)
Inductive Outcome : Type :=
  | Response (status_code : Z) (doc : JsonDoc)
  | RequestException
  | OtherException.

(** [d.get(key)]: a missing key and [null] both read as [None]. *)
Definition field_get (f : Field) : SpeedVal :=
  match f with
  | JNum q => Some q
  | _ => None
  end.

(** [d[key]]: a missing key raises [KeyError]. *)
Definition field_index (f : Field) : option SpeedVal :=
  match f with
  | Absent => None
  | JNull => Some None
  | JNum q => Some (Some q)
  end.

(** Float operations on coordinates that the embedding keeps abstract:
    [round(x, 4)] and the text of a float in an f-string. *)
Class PyFloat (coord : Type) : Type := {
  round4 : coord -> coord;
  fmt : coord -> string
}.

(* ===================================================================== *)
(** * app.py: stop lookup, congestion cache, route evaluation             *)
(* ===================================================================== *)

Module App.

Section WithCoordinates.
Context {coord : Type} `{PyFloat coord}.

(** ** Static schedule tables (the four data frames) *)

(** A row of [stops_df].  [stop_lat] / [stop_lon] are [None] when
    [float(...)] raises on the cell. *)
Record StopRow : Type := {
  stop_id : Z;
  stop_name : string;
  stop_lat : option coord;
  stop_lon : option coord
}.

Record StopTimeRow : Type := {
  st_trip_id : Z;
  st_stop_id : Z;
  stop_sequence : Z
}.

Record TripRow : Type := { tr_trip_id : Z; tr_route_id : Z }.
Record RouteRow : Type := { rt_route_id : Z; route_long_name : string }.

Record Gtfs : Type := {
  stops_df : list StopRow;
  stop_times_df : list StopTimeRow;
  trips_df : list TripRow;
  routes_df : list RouteRow
}.

(** ** get_stop_id_by_name *)

Definition get_stop_id_by_name (g : Gtfs) (name : string) : option Z :=
  let matched :=
    List.filter (fun r => String.eqb (str_lower (stop_name r)) (str_lower name))
                (stops_df g) in
  match matched with
  | r :: _ => Some (stop_id r)
  | [] => None
  end.

(** ** find_routes_between *)

(** [not stop_id] for the value [get_stop_id_by_name] returned: true for
    [None] and for the integer 0. *)
Definition falsy_id (v : option Z) : bool :=
  match v with
  | None => true
  | Some i => (i =? 0)%Z
  end.

(** Keys of [groupby('trip_id')], in the order pandas iterates them:
    ascending, each once. *)
Fixpoint insert_uniq (x : Z) (l : list Z) : list Z :=
  match l with
  | [] => [x]
  | y :: l' =>
      if (x <? y)%Z then x :: y :: l'
      else if (x =? y)%Z then y :: l'
      else y :: insert_uniq x l'
  end.

Definition group_keys (rows : list StopTimeRow) : list Z :=
  fold_right insert_uniq [] (map st_trip_id rows).

(** The rows of one trip ordered by [stop_sequence]
    ([sort_values('stop_sequence')]).  A schedule numbers the calls of a
    trip distinctly; rows with equal numbers stay in table order here. *)
Definition trip_rows (g : Gtfs) (trip_id : Z) : list StopTimeRow :=
  py_sorted Z.leb stop_sequence
    (List.filter (fun r => (st_trip_id r =? trip_id)%Z) (stop_times_df g)).

Definition trip_stop_ids (g : Gtfs) (trip_id : Z) : list Z :=
  map st_stop_id (trip_rows g trip_id).

(** The test in the loop body: both ids are in the sequence and the
    first position of the source is below the first position of the
    destination. *)
Definition trip_qualifies (source_id dest_id : Z) (stop_ids : list Z) : bool :=
  py_in source_id stop_ids && py_in dest_id stop_ids &&
  match py_index source_id stop_ids, py_index dest_id stop_ids with
  | Some i, Some j => (i <? j)%nat
  | _, _ => false
  end.

Definition find_routes_between (g : Gtfs) (source_name dest_name : string) : list Z :=
  let source_id := get_stop_id_by_name g source_name in
  let dest_id := get_stop_id_by_name g dest_name in
  if falsy_id source_id || falsy_id dest_id then []
  else
    match source_id, dest_id with
    | Some s, Some d =>
        List.filter (fun trip_id => trip_qualifies s d (trip_stop_ids g trip_id))
                    (group_keys (stop_times_df g))
    | _, _ => []
    end.

(** ** get_ordered_stops_for_trip *)

Record StopInfo : Type := {
  si_stop_id : Z;
  si_stop_name : string;
  lat : coord;
  lon : coord
}.

Definition stop_info_of (g : Gtfs) (row : StopTimeRow) : option StopInfo :=
  match List.filter (fun s => (stop_id s =? st_stop_id row)%Z) (stops_df g) with
  | [] => None
  | stop :: _ =>
      match stop_lat stop, stop_lon stop with
      | Some la, Some lo =>
          Some {| si_stop_id := st_stop_id row; si_stop_name := stop_name stop;
                  lat := la; lon := lo |}
      | _, _ => None
      end
  end.

Definition get_ordered_stops_for_trip (g : Gtfs) (trip_id : Z) : list StopInfo :=
  omap (stop_info_of g) (trip_rows g trip_id).

(** ** Module state and the upstream flow endpoint *)

Record AppState : Type := {
  congestion_cache : gmap string (SpeedVal * SpeedVal);
  cache_hits : nat;
  api_calls : nat;
  (** number of [requests.get] calls issued so far *)
  requests : nat;
  (** content of [congestion_cache.json] *)
  cache_file : gmap string (SpeedVal * SpeedVal)
}.

Definition set_cache (f : gmap string (SpeedVal * SpeedVal) -> gmap string (SpeedVal * SpeedVal))
    (s : AppState) : AppState :=
  {| congestion_cache := f (congestion_cache s); cache_hits := cache_hits s;
     api_calls := api_calls s; requests := requests s; cache_file := cache_file s |}.

Definition incr_cache_hits (s : AppState) : AppState :=
  {| congestion_cache := congestion_cache s; cache_hits := S (cache_hits s);
     api_calls := api_calls s; requests := requests s; cache_file := cache_file s |}.

Definition incr_api_calls (s : AppState) : AppState :=
  {| congestion_cache := congestion_cache s; cache_hits := cache_hits s;
     api_calls := S (api_calls s); requests := requests s; cache_file := cache_file s |}.

Definition incr_requests (s : AppState) : AppState :=
  {| congestion_cache := congestion_cache s; cache_hits := cache_hits s;
     api_calls := api_calls s; requests := S (requests s); cache_file := cache_file s |}.

Definition dump_cache (s : AppState) : AppState :=
  {| congestion_cache := congestion_cache s; cache_hits := cache_hits s;
     api_calls := api_calls s; requests := requests s;
     cache_file := congestion_cache s |}.

(** The flow endpoint: what the [n]-th request, made for the point
    [(lat, lon)], does. *)
Variable upstream : nat -> coord -> coord -> Outcome.

(** ** get_congestion *)

Definition cache_key (la lo : coord) : string :=
  fmt (round4 la) +:+ "_" +:+ fmt (round4 lo).

(** [data['flowSegmentData']['currentSpeed']] and [...['freeFlowSpeed']];
    [None] when a key is missing. *)
Definition read_speeds (doc : JsonDoc) : option (SpeedVal * SpeedVal) :=
  match flowSegmentData doc with
  | None => None
  | Some seg =>
      match field_index (currentSpeed seg), field_index (freeFlowSpeed seg) with
      | Some cs, Some ffs => Some (cs, ffs)
      | _, _ => None
      end
  end.

Definition get_congestion (la lo : coord) : M AppState (SpeedVal * SpeedVal) :=
  fun s =>
    let key := cache_key la lo in
    match congestion_cache s !! key with
    | Some v => (Ok v, incr_cache_hits s)
    | None =>
        let s1 := incr_requests s in
        match upstream (requests s) la lo with
        | Response status doc =>
            if (status =? 200)%Z then
              let s2 := incr_api_calls s1 in
              match read_speeds doc with
              | Some (cs, ffs) => (Ok (cs, ffs), set_cache (insert key (cs, ffs)) s2)
              | None => (Ok (None, None), s2)
              end
            else (Ok (None, None), s1)
        | RequestException | OtherException => (Ok (None, None), s1)
        end
    end.

(** ** get_estimated_times *)

(** Entries of the result: minutes past [base_time] at which the stop is
    reached (the code prints this instant as HH:MM), or "N/A". *)
Fixpoint get_estimated_times_from (current_time : Q) (stops : list StopInfo)
    : M AppState (list (option Q)) :=
  match stops with
  | [] => ret []
  | stop :: rest =>
      (r <- get_congestion (lat stop) (lon stop) ;;
       match r with
       | (Some cs, Some fs) =>
           if truthy (Some cs) && truthy (Some fs) then
             let delay_factor := ((1 - cs / fs) * (3 # 2))%Q in
             let current_time' := (current_time + delay_factor)%Q in
             times <- get_estimated_times_from current_time' rest ;;
             ret (Some current_time' :: times)
           else
             times <- get_estimated_times_from current_time rest ;;
             ret (None :: times)
       | _ =>
           times <- get_estimated_times_from current_time rest ;;
           ret (None :: times)
       end)%py
  end.

Definition get_estimated_times (stops : list StopInfo) : M AppState (list (option Q)) :=
  get_estimated_times_from 0 stops.

(** ** evaluate_routes *)

Record RouteScore : Type := {
  route_name : string;
  trip_id : Z;
  stops : nat;
  avg_congestion : Q;
  est_delay_min : Q;
  coordinates : list (coord * coord);
  congestion_values : list Q;
  etas : list (option Q)
}.

(** The body of the inner loop once the speeds are read: the new
    [(total_delay, congestion_values)]. *)
Definition stop_included (current_speed free_speed : SpeedVal) : bool :=
  truthy current_speed && truthy free_speed &&
  match free_speed with Some fs => Qltb 0 fs | None => false end.

Definition stop_congestion (cs fs : Q) : Q := max0 (100 - cs / fs * 100).
Definition stop_delay (cs fs : Q) : Q := ((1 - cs / fs) * (3 # 2))%Q.

Definition accumulate_stop (acc : Q * list Q) (r : SpeedVal * SpeedVal) : Q * list Q :=
  let '(total_delay, values) := acc in
  match r with
  | (Some cs, Some fs) =>
      if stop_included (Some cs) (Some fs)
      then ((total_delay + stop_delay cs fs)%Q, values ++ [stop_congestion cs fs])
      else acc
  | _ => acc
  end.

Fixpoint score_stops (acc : Q * list Q) (stops : list StopInfo) : M AppState (Q * list Q) :=
  match stops with
  | [] => ret acc
  | stop :: rest =>
      (r <- get_congestion (lat stop) (lon stop) ;;
       score_stops (accumulate_stop acc r) rest)%py
  end.

(** [df[df[col] == v][col2].iloc[0]]: [IndexError] when nothing matches. *)
Definition route_id_of (g : Gtfs) (t : Z) : M AppState Z :=
  match List.filter (fun r => (tr_trip_id r =? t)%Z) (trips_df g) with
  | r :: _ => ret (tr_route_id r)
  | [] => raise "IndexError"
  end.

Definition route_name_of (g : Gtfs) (rid : Z) : M AppState string :=
  match List.filter (fun r => (rt_route_id r =? rid)%Z) (routes_df g) with
  | r :: _ => ret (route_long_name r)
  | [] => raise "IndexError"
  end.

Definition mean (values : list Q) : Q :=
  (py_sum values / inject_Z (Z.of_nat (length values)))%Q.

(** One iteration of the outer loop: the entry appended to
    [route_scores], if any. *)
Definition evaluate_trip (g : Gtfs) (t : Z) : M AppState (option RouteScore) :=
  (let stops_ := get_ordered_stops_for_trip g t in
   etas_ <- get_estimated_times stops_ ;;
   acc <- score_stops (0%Q, []) stops_ ;;
   let '(total_delay, values) := acc in
   match values with
   | [] => ret None
   | _ :: _ =>
       rid <- route_id_of g t ;;
       rname <- route_name_of g rid ;;
       ret (Some {| route_name := rname;
                    trip_id := t;
                    stops := length stops_;
                    avg_congestion := round2 (mean values);
                    est_delay_min := round2 total_delay;
                    coordinates := map (fun s => (lat s, lon s)) stops_;
                    congestion_values := values;
                    etas := etas_ |})
   end)%py.

Fixpoint collect_scores (g : Gtfs) (trip_ids : list Z) : M AppState (list RouteScore) :=
  match trip_ids with
  | [] => ret []
  | t :: rest =>
      (r <- evaluate_trip g t ;;
       scores <- collect_scores g rest ;;
       ret (match r with Some sc => sc :: scores | None => scores end))%py
  end.

Definition evaluate_routes (g : Gtfs) (trip_ids : list Z) : M AppState (list RouteScore) :=
  (route_scores <- collect_scores g trip_ids ;;
   modify dump_cache ;;;
   ret (py_sorted Qle_bool est_delay_min route_scores))%py.

(** ** The loops in terms of the readings they obtain *)

(** The speeds one pass over [stops] reads, in order. *)
Fixpoint read_all (stops : list StopInfo) : M AppState (list (SpeedVal * SpeedVal)) :=
  match stops with
  | [] => ret []
  | stop :: rest =>
      (r <- get_congestion (lat stop) (lon stop) ;;
       rs <- read_all rest ;;
       ret (r :: rs))%py
  end.

Definition reading_included (r : SpeedVal * SpeedVal) : bool :=
  stop_included (fst r) (snd r).

Definition reading_congestion (r : SpeedVal * SpeedVal) : Q :=
  match r with
  | (Some cs, Some fs) => stop_congestion cs fs
  | _ => 0
  end.

Definition reading_delay (r : SpeedVal * SpeedVal) : Q :=
  match r with
  | (Some cs, Some fs) => stop_delay cs fs
  | _ => 0
  end.

(** The two [iloc[0]] lookups of a trip's route name together. *)
Definition route_lookup (g : Gtfs) (t : Z) : option string :=
  match List.filter (fun r => (tr_trip_id r =? t)%Z) (trips_df g) with
  | r :: _ =>
      match List.filter (fun ro => (rt_route_id ro =? tr_route_id r)%Z) (routes_df g) with
      | ro :: _ => Some (route_long_name ro)
      | [] => None
      end
  | [] => None
  end.

(** The entries [get_estimated_times] builds from the speeds it reads,
    the clock standing at [current_time]. *)
Fixpoint etas_of (current_time : Q) (rs : list (SpeedVal * SpeedVal)) : list (option Q) :=
  match rs with
  | [] => []
  | (Some cs, Some fs) :: rest =>
      if truthy (Some cs) && truthy (Some fs) then
        let current_time' := (current_time + (1 - cs / fs) * (3 # 2))%Q in
        Some current_time' :: etas_of current_time' rest
      else None :: etas_of current_time rest
  | _ :: rest => None :: etas_of current_time rest
  end.

(** [s'] is reached from [s] by [n] calls of [get_congestion]: each call
    is a cache hit or a request, requests answered 200 are the only ones
    counted in [api_calls], entries of the cache stay as they are, and the
    cache file is not written. *)
Definition lookups (n : nat) (s s' : AppState) : Prop :=
  (cache_hits s' + requests s' = cache_hits s + requests s + n)%nat /\
  (requests s <= requests s')%nat /\
  (api_calls s <= api_calls s')%nat /\
  (api_calls s' + requests s <= api_calls s + requests s')%nat /\
  cache_file s' = cache_file s /\
  forall key v, congestion_cache s !! key = Some v -> congestion_cache s' !! key = Some v.

(** The number of stops the loops of [evaluate_routes] walk for a list of
    trips. *)
Definition stops_walked (g : Gtfs) (trip_ids : list Z) : nat :=
  list_sum (map (fun t => length (get_ordered_stops_for_trip g t)) trip_ids).

(** An entry built from at least one counted stop, whose average is the
    rounded mean of its congestion values. *)
Definition scored (sc : RouteScore) : Prop :=
  congestion_values sc <> [] /\
  avg_congestion sc = round2 (mean (congestion_values sc)).

End WithCoordinates.

Arguments StopRow : clear implicits.
Arguments Gtfs : clear implicits.
Arguments StopInfo : clear implicits.
Arguments RouteScore : clear implicits.

End App.

(* ===================================================================== *)
(** * The SQLite tables shared by the collector and the alert engine      *)
(* ===================================================================== *)

Module Db.

(** A row of [traffic_data].  [timestamp] is the instant in microseconds
    (the code stores its ISO-8601 text, whose order is that of the
    instants); a SQL NULL speed is [None]. *)
Record Sample {coord : Type} : Type := {
  point_name : string;
  latitude : coord;
  longitude : coord;
  timestamp : Z;
  current_speed : SpeedVal;
  free_flow_speed : SpeedVal;
  traffic_incidents : Z
}.
Arguments Sample : clear implicits.

End Db.

(* ===================================================================== *)
(** * Critical_Real/traffic_collector.py                                  *)
(* ===================================================================== *)

Module Collector.
Import Db.

(** traffic_config.py *)
Definition MAX_RETRIES : nat := 3.

Section WithCoordinates.
Context {coord : Type}.

Record RoutePoint : Type := {
  name : string;
  lat : coord;
  lon : coord
}.

(** The two endpoints; the bounding box of an incident query is a
    function of the point and the radius. *)
Inductive Url : Type :=
  | FlowUrl (la lo : coord)
  | IncidentUrl (la lo : coord) (radius_km : Z).

Record World : Type := {
  (** number of [requests.get] calls issued so far *)
  requests : nat;
  (** number of [datetime.utcnow()] readings so far *)
  clock_reads : nat;
  (** arguments of the [time.sleep] calls, oldest first *)
  sleeps : list Z;
  (** table [traffic_data], oldest row first *)
  traffic_data : list (Sample coord)
}.

(** What the [n]-th request does, and what the [n]-th clock reading is. *)
Variable net : nat -> Url -> Outcome.
Variable utcnow : nat -> Z.
(** [self.api_key]; unset and empty are both falsy. *)
Variable api_key : option string.

(** The world after one more request. *)
Definition requested (w : World) : World :=
  {| requests := S (requests w); clock_reads := clock_reads w;
     sleeps := sleeps w; traffic_data := traffic_data w |}.

Definition http_get (u : Url) : M World Outcome :=
  fun w => (Ok (net (requests w) u), requested w).

Definition sleep (seconds : Z) : M World unit :=
  modify (fun w => {| requests := requests w; clock_reads := clock_reads w;
                      sleeps := sleeps w ++ [seconds]; traffic_data := traffic_data w |}).

Definition read_clock : M World Z :=
  fun w => (Ok (utcnow (clock_reads w)),
            {| requests := requests w; clock_reads := S (clock_reads w);
               sleeps := sleeps w; traffic_data := traffic_data w |}).

Definition insert_sample (row : Sample coord) : M World unit :=
  modify (fun w => {| requests := requests w; clock_reads := clock_reads w;
                      sleeps := sleeps w; traffic_data := traffic_data w ++ [row] |}).

(** [if attempt < MAX_RETRIES - 1: time.sleep(1 * (attempt + 1))] *)
Definition backoff (attempt : nat) : M World unit :=
  if (attempt <? MAX_RETRIES - 1)%nat then sleep (1 * (Z.of_nat attempt + 1)) else ret tt.

(** ** _get_incident_count *)

(** The [for attempt in range(MAX_RETRIES)] loop, over the attempt
    indices still to run; falling off the end is the final [return 0]. *)
Fixpoint incident_attempts (la lo : coord) (radius_km : Z) (attempts : list nat)
    : M World Z :=
  match attempts with
  | [] => ret 0%Z
  | attempt :: later =>
      (o <- http_get (IncidentUrl la lo radius_km) ;;
       match o with
       | Response status doc =>
           if (status =? 200)%Z then
             ret (Z.of_nat (length (default [] (incidents doc))))
           else
             backoff attempt ;;; incident_attempts la lo radius_km later
       | RequestException =>
           backoff attempt ;;; incident_attempts la lo radius_km later
       | OtherException => ret 0%Z
       end)%py
  end.

Definition _get_incident_count (la lo : coord) (radius_km : Z) : M World Z :=
  incident_attempts la lo radius_km (seq 0 MAX_RETRIES).

(** ** get_traffic_data *)

Fixpoint flow_attempts (point : RoutePoint) (attempts : list nat)
    : M World (option (Sample coord)) :=
  match attempts with
  | [] => ret None
  | attempt :: later =>
      (o <- http_get (FlowUrl (lat point) (lon point)) ;;
       match o with
       | Response status doc =>
           if (status =? 200)%Z then
             n <- match flowSegmentData doc with
                  | Some _ => _get_incident_count (lat point) (lon point) 2
                  | None => ret 0%Z
                  end ;;
             now <- read_clock ;;
             ret (Some {| point_name := name point;
                          latitude := lat point;
                          longitude := lon point;
                          timestamp := now;
                          current_speed :=
                            from_option (fun seg => field_get (currentSpeed seg)) None
                                        (flowSegmentData doc);
                          free_flow_speed :=
                            from_option (fun seg => field_get (freeFlowSpeed seg)) None
                                        (flowSegmentData doc);
                          traffic_incidents := n |})
           else
             backoff attempt ;;; flow_attempts point later
       | RequestException =>
           backoff attempt ;;; flow_attempts point later
       | OtherException => ret None
       end)%py
  end.

Definition key_set (k : option string) : bool :=
  match k with
  | Some s => negb (String.eqb s EmptyString)
  | None => false
  end.

Definition get_traffic_data (point : RoutePoint) : M World (option (Sample coord)) :=
  if key_set api_key then flow_attempts point (seq 0 MAX_RETRIES) else ret None.

(** ** save_traffic_data *)

Definition save_traffic_data (data : option (Sample coord)) : M World unit :=
  match data with
  | None => ret tt
  | Some row => insert_sample row
  end.

(** ** collect_data: the number of points saved *)

Fixpoint collect_points (points : list RoutePoint) (successful_points : nat)
    : M World nat :=
  match points with
  | [] => ret successful_points
  | point :: rest =>
      (traffic_data_ <- get_traffic_data point ;;
       match traffic_data_ with
       | Some row =>
           save_traffic_data (Some row) ;;;
           sleep 1 ;;;
           collect_points rest (S successful_points)
       | None =>
           sleep 1 ;;;
           collect_points rest successful_points
       end)%py
  end.

Definition collect_data (monitor_points : list RoutePoint) : M World nat :=
  collect_points monitor_points 0.

(** Outcomes after which the loops go on to the next attempt, and
    outcomes that are not a 200 response. *)
Definition retryable (o : Outcome) : Prop :=
  match o with
  | Response status _ => status <> 200%Z
  | RequestException => True
  | OtherException => False
  end.


End WithCoordinates.

Arguments RoutePoint : clear implicits.
Arguments Url : clear implicits.
Arguments World : clear implicits.

(** ** _calculate_bounding_box, on exact numbers: the four numbers of the
    text returned, in its order [min_lon, min_lat, max_lon, max_lat]; the
    division by [111 * abs(lat) / 90] raises when that is zero. *)
Definition _calculate_bounding_box (lat lon : Q) (radius_km : Z)
    : Result (Q * Q * Q * Q) :=
  let lat_delta := (inject_Z radius_km / 111)%Q in
  let divisor := (111 * Qabs lat / 90)%Q in
  if Qeq_bool divisor 0 then Raise "ZeroDivisionError"
  else
    let lon_delta := (inject_Z radius_km / divisor)%Q in
    let min_lat := (lat - lat_delta)%Q in
    let max_lat := (lat + lat_delta)%Q in
    let min_lon := (lon - lon_delta)%Q in
    let max_lon := (lon + lon_delta)%Q in
    Ok (min_lon, min_lat, max_lon, max_lat).

(** Seconds slept so far, and the most the back-off of a list of attempts
    can add. *)
Definition total_sleep {coord : Type} (w : World coord) : Z :=
  fold_right Z.add 0%Z (sleeps w).

(** [w'] comes after [w]: at most [r] more requests, sleeps appended that
    add up to at most [z] seconds, at most [c] more clock readings, the
    table untouched. *)
Definition after {coord : Type} (r : nat) (z : Z) (c : nat) (w w' : World coord) : Prop :=
  (requests w <= requests w' <= requests w + r)%nat /\
  (exists extra, sleeps w' = sleeps w ++ extra /\
                 Forall (fun x => (0 <= x)%Z) extra /\
                 (fold_right Z.add 0 extra <= z)%Z) /\
  (clock_reads w <= clock_reads w' <= clock_reads w + c)%nat /\
  traffic_data w' = traffic_data w.

Definition backoff_budget (attempts : list nat) : Z :=
  fold_right Z.add 0%Z
    (map (fun attempt => if (attempt <? MAX_RETRIES - 1)%nat
                         then (1 * (Z.of_nat attempt + 1))%Z else 0%Z) attempts).

End Collector.

(* ===================================================================== *)
(** * Critical_Real/traffic_analyzer.py                                   *)
(* ===================================================================== *)

Module Analyzer.

(** [Series.clip(lower, upper)] on one value. *)
Definition clip (lower upper x : Q) : Q :=
  if Qltb x lower then lower else if Qltb upper x then upper else x.

(** The [traffic_index] column of [get_traffic_trends], one row. *)
Definition traffic_index (avg_speed avg_free_flow : Q) : Q :=
  clip 0 100 (100 * (1 - avg_speed / avg_free_flow)).


(** [Series.round(1)] on one value. *)
Definition round1 (x : Q) : Q := (inject_Z (round_half_even (x * 10)) / 10)%Q.

(** The [traffic_index] column of [get_worst_performing_routes], one row:
    rounded, not clipped. *)
Definition worst_traffic_index (avg_speed avg_free_flow : Q) : Q :=
  round1 (100 * (1 - avg_speed / avg_free_flow)).

End Analyzer.

(* ===================================================================== *)
(** * Critical_Real/traffic_alerts.py                                     *)
(* ===================================================================== *)

Module Alerts.
Import Db.

Inductive AlertType : Type := CONGESTION | INCIDENTS | SPEED_REDUCTION.

#[global] Instance AlertType_eq_dec : EqDecision AlertType.
Proof. solve_decision. Defined.

(** The text of an alert, by its template and the values printed in it. *)
Inductive Message : Type :=
  | SevereCongestion (point : string) (traffic_index : Q)
  | IncidentsReported (n : Z) (point : string)
  | SpeedReduction (point : string) (reduction_percent : Q).

Record Alert : Type := {
  a_point_name : string;
  alert_type : AlertType;
  severity : Z;
  message : Message
}.

(** A row of [traffic_alerts] (the autoincrement id is the position). *)
Record AlertRow : Type := {
  r_point_name : string;
  r_alert_type : AlertType;
  r_severity : Z;
  r_message : Message;
  r_timestamp : Z;
  notified : Z
}.

(** Thresholds set in [__init__]. *)
Definition severe_congestion_threshold : Q := 80.
Definition high_incident_threshold : Z := 3.
Definition speed_reduction_threshold : Q := 4 # 10.

(** [x > 0] on a cell pandas read back: false on NaN. *)
Definition positive (v : SpeedVal) : bool :=
  match v with
  | Some q => Qltb 0 q
  | None => false
  end.

(** [min(100, x)] and [max(0, y)] as Python evaluates them. *)
Definition min100 (x : Q) : Q := if Qltb x 100 then x else 100.

(** Lines 71-76. *)
Definition traffic_index (current_speed free_flow_speed : SpeedVal) : Q :=
  match current_speed, free_flow_speed with
  | Some cs, Some ffs =>
      if positive (Some ffs) && positive (Some cs) then
        let speed_ratio := (cs / ffs)%Q in
        max0 (min100 (100 * (1 - speed_ratio)))
      else 0
  | _, _ => 0
  end.

Section WithCoordinates.
Context {coord : Type}.

Definition congestion_alert (row : Sample coord) : list Alert :=
  let ti := traffic_index (current_speed row) (free_flow_speed row) in
  if Qle_bool severe_congestion_threshold ti then
    [{| a_point_name := point_name row; alert_type := CONGESTION;
        severity := py_min (py_int (ti / 10)) 10;
        message := SevereCongestion (point_name row) ti |}]
  else [].

Definition incidents_alert (row : Sample coord) : list Alert :=
  let n := traffic_incidents row in
  if (high_incident_threshold <=? n)%Z then
    [{| a_point_name := point_name row; alert_type := INCIDENTS;
        severity := py_min n 10;
        message := IncidentsReported n (point_name row) |}]
  else [].

Definition speed_alert (row : Sample coord) : list Alert :=
  match current_speed row, free_flow_speed row with
  | Some cs, Some ffs =>
      if positive (Some ffs) && positive (Some cs) then
        if Qle_bool (cs / ffs) speed_reduction_threshold then
          [{| a_point_name := point_name row; alert_type := SPEED_REDUCTION;
              severity := py_min (py_int ((1 - cs / ffs) * 10)) 10;
              message := SpeedReduction (point_name row) (100 * (1 - cs / ffs)) |}]
        else []
      else []
  | _, _ => []
  end.

(** The body of the loop over [recent_data]: what one row appends. *)
Definition row_alerts (row : Sample coord) : list Alert :=
  congestion_alert row ++ incidents_alert row ++ speed_alert row.

(** The alert types one row raises. *)
Definition raises (t : AlertType) (row : Sample coord) : Prop :=
  In t (map alert_type (row_alerts row)).

(** The ratio current / free-flow of a row, when both speeds are numbers
    above zero (the guard of lines 72 and 100). *)
Definition speed_ratio (row : Sample coord) : option Q :=
  match current_speed row, free_flow_speed row with
  | Some cs, Some ffs =>
      if positive (Some ffs) && positive (Some cs) then Some (cs / ffs)%Q else None
  | _, _ => None
  end.


Record Config : Type := {
  email_sender : option string;
  email_password : option string;
  alert_recipients : list string
}.

Definition str_set (k : option string) : bool :=
  match k with
  | Some s => negb (String.eqb s EmptyString)
  | None => false
  end.

Record World : Type := {
  clock_reads : nat;
  traffic_data : list (Sample coord);
  (** table [traffic_alerts], oldest row first *)
  traffic_alerts : list AlertRow;
  (** SMTP sessions opened so far, and the mails delivered *)
  smtp_sessions : nat;
  outbox : list (list Alert)
}.

Variable utcnow : nat -> Z.
(** Whether the [n]-th SMTP session delivers the message. *)
Variable smtp_ok : nat -> bool.
Variable cfg : Config.

Definition read_clock : M World Z :=
  fun w => (Ok (utcnow (clock_reads w)),
            {| clock_reads := S (clock_reads w); traffic_data := traffic_data w;
               traffic_alerts := traffic_alerts w; smtp_sessions := smtp_sessions w;
               outbox := outbox w |}).

Definition set_alert_table (f : list AlertRow -> list AlertRow) : M World unit :=
  modify (fun w => {| clock_reads := clock_reads w; traffic_data := traffic_data w;
                      traffic_alerts := f (traffic_alerts w);
                      smtp_sessions := smtp_sessions w; outbox := outbox w |}).

(** One SMTP session: [true] when the message went out, [false] when
    the [with smtplib.SMTP(...)] block raised. *)
Definition smtp_send (mail : list Alert) : M World bool :=
  fun w =>
    let ok := smtp_ok (smtp_sessions w) in
    (Ok ok,
     {| clock_reads := clock_reads w; traffic_data := traffic_data w;
        traffic_alerts := traffic_alerts w; smtp_sessions := S (smtp_sessions w);
        outbox := if ok then outbox w ++ [mail] else outbox w |}).

(** ** _get_recent_traffic_data *)

Definition one_hour : Z := 3600 * 1000000.

Definition _get_recent_traffic_data : M World (list (Sample coord)) :=
  (now <- read_clock ;;
   w <- get_state ;;
   let one_hour_ago := (now - one_hour)%Z in
   ret (py_sorted (fun a b => (b <=? a)%Z) timestamp
          (List.filter (fun r => (one_hour_ago <? timestamp r)%Z) (traffic_data w))))%py.

(** ** _save_alerts *)

Definition row_of (timestamp : Z) (alert : Alert) : AlertRow :=
  {| r_point_name := a_point_name alert; r_alert_type := alert_type alert;
     r_severity := severity alert; r_message := message alert;
     r_timestamp := timestamp; notified := 0 |}.

Definition _save_alerts (alerts : list Alert) : M World unit :=
  (timestamp <- read_clock ;;
   set_alert_table (fun rows => rows ++ map (row_of timestamp) alerts))%py.

(** ** _send_alert_email *)

(** [UPDATE traffic_alerts SET notified = 1
     WHERE point_name = ? AND alert_type = ? AND timestamp = ?] *)
Definition mark_notified (timestamp : Z) (alert : Alert) (rows : list AlertRow)
    : list AlertRow :=
  map (fun r =>
         if String.eqb (r_point_name r) (a_point_name alert)
            && bool_decide (r_alert_type r = alert_type alert)
            && (r_timestamp r =? timestamp)%Z
         then {| r_point_name := r_point_name r; r_alert_type := r_alert_type r;
                 r_severity := r_severity r; r_message := r_message r;
                 r_timestamp := r_timestamp r; notified := 1 |}
         else r)
      rows.

Definition _send_alert_email (alerts : list Alert) : M World unit :=
  match alerts with
  | [] => ret tt
  | _ :: _ =>
      (let sorted_alerts := py_sorted (fun a b => (b <=? a)%Z) severity alerts in
       sent <- smtp_send sorted_alerts ;;
       if sent then
         timestamp <- read_clock ;;
         set_alert_table (fun rows => fold_left (fun rs a => mark_notified timestamp a rs)
                                                alerts rows)
       else ret tt)%py
  end.

(** ** check_for_alerts: [None] is the bare [return] on an empty window *)

Definition check_for_alerts : M World (option (list Alert)) :=
  (recent_data <- _get_recent_traffic_data ;;
   match recent_data with
   | [] => ret None
   | _ :: _ =>
       let alerts := flat_map row_alerts recent_data in
       match alerts with
       | [] => ret (Some alerts)
       | _ :: _ =>
           _save_alerts alerts ;;;
           (if str_set (email_sender cfg) && str_set (email_password cfg)
               && negb (bool_decide (alert_recipients cfg = []))
            then _send_alert_email alerts else ret tt) ;;;
           ret (Some alerts)
       end
   end)%py.

End WithCoordinates.

Arguments World : clear implicits.

(** [r'] is the row [r], except that its [notified] flag may have been
    set to 1. *)
Definition flagged_from (r r' : AlertRow) : Prop :=
  r_point_name r' = r_point_name r /\
  r_alert_type r' = r_alert_type r /\
  r_severity r' = r_severity r /\
  r_message r' = r_message r /\
  r_timestamp r' = r_timestamp r /\
  (notified r' = notified r \/ notified r' = 1%Z).


End Alerts.

(* ===================================================================== *)
(** * A concrete reading of coordinates, for worked examples              *)
(* ===================================================================== *)

Module Decimal.

(** Coordinates as exact decimals; [round(x, 4)] keeps four places and
    the text is sign, integer part, point, and the places left once
    trailing zeros are dropped (at least one). *)
Definition round_places4 (x : Q) : Q :=
  Qred (inject_Z (round_half_even (x * 10000)) / 10000).

Definition digit (n : Z) : string := pretty (n mod 10)%Z.

Definition places (r : Z) : string :=
  let d1 := digit (r / 1000) in
  let d2 := digit (r / 100) in
  let d3 := digit (r / 10) in
  let d4 := digit r in
  if negb (r mod 10 =? 0)%Z then d1 +:+ d2 +:+ d3 +:+ d4
  else if negb (r mod 100 =? 0)%Z then d1 +:+ d2 +:+ d3
  else if negb (r mod 1000 =? 0)%Z then d1 +:+ d2
  else d1.

Definition decimal_text (x : Q) : string :=
  let n := round_half_even (x * 10000) in
  let a := Z.abs n in
  (if (n <? 0)%Z then "-" else EmptyString)
  +:+ pretty (a / 10000)%Z +:+ "." +:+ places (a mod 10000).

#[global] Instance decimal_coord : PyFloat Q :=
  {| round4 := round_places4; fmt := decimal_text |}.

End Decimal.

(* ===================================================================== *)
(** * Worked data: a small schedule, endpoints, a clock                  *)
(* ===================================================================== *)

Module Examples.
Import App.

Definition state0 : AppState :=
  {| congestion_cache := ∅; cache_hits := 0; api_calls := 0; requests := 0;
     cache_file := ∅ |}.

Definition flow_doc (cs ffs : Q) : JsonDoc :=
  {| flowSegmentData := Some {| currentSpeed := JNum cs; freeFlowSpeed := JNum ffs |};
     incidents := None |}.

Definition stop (id : Z) (name : string) (la lo : Q) : StopRow Q :=
  {| stop_id := id; stop_name := name; stop_lat := Some la; stop_lon := Some lo |}.

Definition call (trip stop_ seq_ : Z) : StopTimeRow :=
  {| st_trip_id := trip; st_stop_id := stop_; stop_sequence := seq_ |}.

(** Stops A, B, C served in that order by trip 100 of route 7. *)
Definition abc : Gtfs Q :=
  {| stops_df := [stop 1 "A" (1291 # 100) (7761 # 100);
                  stop 2 "B" (1292 # 100) (7762 # 100);
                  stop 3 "C" (1293 # 100) (7763 # 100)];
     stop_times_df := [call 100 1 1; call 100 2 2; call 100 3 3];
     trips_df := [{| tr_trip_id := 100; tr_route_id := 7 |}];
     routes_df := [{| rt_route_id := 7; route_long_name := "Route 7" |}] |}.

(** The endpoint reports 15 / 30 km/h at B and 30 / 30 km/h elsewhere. *)
Definition abc_speeds (n : nat) (la lo : Q) : Outcome :=
  Response 200 (flow_doc (if Qeq_bool la (1292 # 100) then 15 else 30) 30).



(** A circular trip: it leaves stop 10, calls at stop 20 and returns to
    stop 10. *)
Definition ring : Gtfs Q :=
  {| stops_df := [stop 10 "Majestic" (1297 # 100) (7757 # 100);
                  stop 20 "Market" (1296 # 100) (7758 # 100)];
     stop_times_df := [call 1 10 1; call 1 20 2; call 1 10 3];
     trips_df := [{| tr_trip_id := 1; tr_route_id := 7 |}];
     routes_df := [{| rt_route_id := 7; route_long_name := "Route 7" |}] |}.

(** ** The collector *)

Definition mg_road : Collector.RoutePoint Q :=
  {| Collector.name := "MG Road"; Collector.lat := 129758 # 10000;
     Collector.lon := 776045 # 10000 |}.

Definition world0 : Collector.World Q :=
  {| Collector.requests := 0; Collector.clock_reads := 0; Collector.sleeps := [];
     Collector.traffic_data := [] |}.

(** A clock that advances one second between readings. *)
Definition clock (n : nat) : Z := (1700000000000000 + 1000000 * Z.of_nat n)%Z.

Definition no_doc : JsonDoc := {| flowSegmentData := None; incidents := None |}.
Definition no_incidents : JsonDoc := {| flowSegmentData := None; incidents := Some [] |}.

(** Every request is answered 403 Forbidden. *)
Definition forbidden (n : nat) (u : Collector.Url Q) : Outcome := Response 403 no_doc.



Definition incidents_none (n : nat) (u : Collector.Url Q) : Outcome :=
  match u with
  | Collector.FlowUrl _ _ => Response 200 (flow_doc 20 40)
  | Collector.IncidentUrl _ _ _ => Response 200 no_incidents
  end.

(** ** The alert engine *)

Definition reading (cs ffs : SpeedVal) (n : Z) : Db.Sample Q :=
  {| Db.point_name := "MG Road"; Db.latitude := 129758 # 10000;
     Db.longitude := 776045 # 10000; Db.timestamp := clock 0;
     Db.current_speed := cs; Db.free_flow_speed := ffs; Db.traffic_incidents := n |}.


Definition mail_config : Alerts.Config :=
  {| Alerts.email_sender := Some "monitor@example.org";
     Alerts.email_password := Some "secret";
     Alerts.alert_recipients := ["ops@example.org"] |}.

Definition alert_world0 : Alerts.World Q :=
  {| Alerts.clock_reads := 0; Alerts.traffic_data := [];
     Alerts.traffic_alerts := []; Alerts.smtp_sessions := 0; Alerts.outbox := [] |}.

Definition delivered (n : nat) : bool := true.

(** The alerts of one reading at 10 / 50 km/h. *)
Definition batch : list Alerts.Alert :=
  Alerts.row_alerts (reading (Some 10%Q) (Some 50%Q) 0).

(** The first two requests are answered 503, the later ones as in
    [incidents_none]. *)
Definition flaky (n : nat) (u : Collector.Url Q) : Outcome :=
  if (n <? 2)%nat then Response 503 no_doc else incidents_none n u.

(** Every request raises an exception that is not a [RequestException]. *)
Definition broken (n : nat) (u : Collector.Url Q) : Outcome := OtherException.

(** Every request is answered 200 with an empty JSON object. *)
Definition hollow (n : nat) (u : Collector.Url Q) : Outcome := Response 200 no_doc.

Definition silk_board : Collector.RoutePoint Q :=
  {| Collector.name := "Silk Board"; Collector.lat := 129177 # 10000;
     Collector.lon := 776226 # 10000 |}.

(** An SMTP server that refuses every session, and a configuration with
    no sender. *)
Definition refused (n : nat) : bool := false.



End Examples.

(* ===================================================================== *)
(** * Facts about the built-ins                                           *)
(* ===================================================================== *)

Section SortedFacts.
Context {A K : Type} (leb : K -> K -> bool) (key : A -> K).
Hypothesis leb_total : forall a b, leb a b = false -> leb b a = true.
Hypothesis leb_trans : forall a b c, leb a b = true -> leb b c = true -> leb a c = true.

Lemma insert_by_perm (x : A) (l : list A) :
  Permutation (insert_by leb key x l) (x :: l).
Proof.
  induction l as [|y l IH]; simpl; [reflexivity|].
  destruct (leb (key x) (key y)); [reflexivity|].
  rewrite IH. apply perm_swap.
Qed.

Lemma py_sorted_perm (l : list A) : Permutation (py_sorted leb key l) l.
Proof.
  induction l as [|x l IH]; simpl; [reflexivity|].
  rewrite insert_by_perm. now constructor.
Qed.

Lemma insert_by_sorted (x : A) (l : list A) :
  StronglySorted (fun a b => leb (key a) (key b) = true) l ->
  StronglySorted (fun a b => leb (key a) (key b) = true) (insert_by leb key x l).
Proof.
  induction 1 as [|y l Hl IH Hy]; simpl.
  - repeat constructor.
  - destruct (leb (key x) (key y)) eqn:E.
    + constructor; [now constructor|].
      constructor; [exact E|].
      eapply List.Forall_impl; [|exact Hy].
      intros z Hz. cbv beta in *. eauto.
    + constructor; [exact IH|].
      eapply Permutation_Forall; [symmetry; apply insert_by_perm|].
      constructor; [|exact Hy].
      apply leb_total, E.
Qed.

Lemma py_sorted_sorted (l : list A) :
  StronglySorted (fun a b => leb (key a) (key b) = true) (py_sorted leb key l).
Proof.
  induction l; simpl; [constructor | now apply insert_by_sorted].
Qed.

(** Stability: elements that the order does not separate keep their
    relative position. *)
Lemma insert_by_filter (P : A -> bool) (x : A) (l : list A) :
  (forall a b, P a = true -> P b = true -> leb (key a) (key b) = true) ->
  List.filter P (insert_by leb key x l) = List.filter P (x :: l).
Proof.
  intros HP. induction l as [|y l IH]; [reflexivity|].
  cbn [insert_by]. destruct (leb (key x) (key y)) eqn:E; [reflexivity|].
  cbn [List.filter] in *. rewrite IH.
  destruct (P x) eqn:Px, (P y) eqn:Py; try reflexivity.
  rewrite (HP x y Px Py) in E. discriminate.
Qed.

Lemma py_sorted_stable (P : A -> bool) (l : list A) :
  (forall a b, P a = true -> P b = true -> leb (key a) (key b) = true) ->
  List.filter P (py_sorted leb key l) = List.filter P l.
Proof.
  intros HP. induction l as [|x l IH]; [reflexivity|].
  cbn [py_sorted]. rewrite insert_by_filter by exact HP.
  cbn [List.filter]. now rewrite IH.
Qed.
End SortedFacts.

Lemma StronglySorted_weaken {A : Type} (R R' : A -> A -> Prop) (l : list A) :
  (forall a b, R a b -> R' a b) -> StronglySorted R l -> StronglySorted R' l.
Proof.
  intros HR. induction 1 as [|x l Hl IH Hx]; constructor; [exact IH|].
  eapply List.Forall_impl; [|exact Hx]. intros b. apply HR.
Qed.

Lemma Qle_bool_total (a b : Q) : Qle_bool a b = false -> Qle_bool b a = true.
Proof.
  intros E. apply Qle_bool_iff. apply Qlt_le_weak, Qnot_le_lt.
  intros Hle. apply Qle_bool_iff in Hle. congruence.
Qed.

Lemma Qle_bool_trans (a b c : Q) :
  Qle_bool a b = true -> Qle_bool b c = true -> Qle_bool a c = true.
Proof. rewrite !Qle_bool_iff. apply Qle_trans. Qed.

Lemma Qltb_lt (a b : Q) : Qltb a b = true <-> (a < b)%Q.
Proof.
  unfold Qltb. rewrite negb_true_iff. split.
  - intros E. apply Qnot_le_lt. intros Hle. apply Qle_bool_iff in Hle. congruence.
  - intros Hlt. destruct (Qle_bool b a) eqn:E; [|reflexivity].
    apply Qle_bool_iff in E. exfalso. eapply Qlt_not_le; eassumption.
Qed.

Lemma Qltb_ge (a b : Q) : Qltb a b = false <-> (b <= a)%Q.
Proof.
  unfold Qltb. rewrite negb_false_iff. apply Qle_bool_iff.
Qed.


(* ===================================================================== *)
(** * app.py: the congestion cache                                        *)
(* ===================================================================== *)

Section CacheFacts.
Context {coord : Type} `{PyFloat coord}.
Import App.




(** [get_congestion] never raises. *)
Lemma get_congestion_returns upstream (la lo : coord) (s : AppState) :
  exists r s', get_congestion upstream la lo s = (Ok r, s').
Proof.
  unfold get_congestion.
  destruct (congestion_cache s !! cache_key la lo); [eauto|].
  destruct (upstream (requests s) la lo) as [st doc| |]; [|eauto..].
  destruct (st =? 200)%Z; [|eauto].
  destruct (read_speeds doc) as [[cs ffs]|]; eauto.
Qed.
End CacheFacts.



(* ===================================================================== *)
(** * app.py: route evaluation                                            *)
(* ===================================================================== *)

Section RouteFacts.
Context {coord : Type} `{PyFloat coord}.
Variable upstream : nat -> coord -> coord -> Outcome.
Import App.

Lemma get_estimated_times_returns (stops : list (StopInfo coord)) (t0 : Q) (s : AppState) :
  exists times s', get_estimated_times_from upstream t0 stops s = (Ok times, s').
Proof.
  revert t0 s. induction stops as [|stop rest IH]; intros t0 s;
    cbn [get_estimated_times_from].
  - unfold ret. eauto.
  - unfold bind.
    destruct (get_congestion_returns upstream (lat stop) (lon stop) s) as (r & s1 & ->).
    destruct r as [[cs|] [fs|]];
      try (destruct (IH t0 s1) as (ts & s2 & ->); unfold ret; eauto).
    destruct (truthy (Some cs) && truthy (Some fs)).
    + destruct (IH (t0 + (1 - cs / fs) * (3 # 2))%Q s1) as (ts & s2 & ->).
      unfold ret; eauto.
    + destruct (IH t0 s1) as (ts & s2 & ->). unfold ret; eauto.
Qed.

Lemma read_all_returns (stops : list (StopInfo coord)) (s : AppState) :
  exists rs s', read_all upstream stops s = (Ok rs, s').
Proof.
  revert s. induction stops as [|stop rest IH]; intros s; simpl.
  - unfold ret. eauto.
  - unfold bind.
    destruct (get_congestion_returns upstream (lat stop) (lon stop) s) as (r & s1 & ->).
    destruct (IH s1) as (rs & s2 & ->). unfold ret. eauto.
Qed.

(** The inner loop of [evaluate_routes] folds [accumulate_stop] over the
    readings of one pass. *)
Lemma score_stops_fold (stops : list (StopInfo coord)) (acc : Q * list Q) (s : AppState)
    rs s' :
  read_all upstream stops s = (Ok rs, s') ->
  score_stops upstream acc stops s = (Ok (fold_left accumulate_stop rs acc), s').
Proof.
  revert acc s rs s'. induction stops as [|stop rest IH]; intros acc s rs s'; simpl.
  - unfold ret. now intros [= <- <-].
  - unfold bind.
    destruct (get_congestion_returns upstream (lat stop) (lon stop) s) as (r & s1 & ->).
    destruct (read_all_returns rest s1) as (rs1 & s2 & E). rewrite E.
    unfold ret. intros [= <- <-]. simpl. now apply IH.
Qed.

Lemma accumulate_stop_step (total : Q) (values : list Q) (r : SpeedVal * SpeedVal) :
  accumulate_stop (total, values) r =
  if reading_included r
  then ((total + reading_delay r)%Q, values ++ [reading_congestion r])
  else (total, values).
Proof.
  destruct r as [[cs|] [fs|]]; unfold reading_included, accumulate_stop;
    cbn [fst snd reading_delay reading_congestion]; try reflexivity.
  destruct (stop_included (Some cs) None) eqn:E; [|reflexivity].
  unfold stop_included in E. now rewrite andb_false_r in E.
Qed.

Lemma fold_accumulate (rs : list (SpeedVal * SpeedVal)) (total : Q) (values : list Q) :
  fold_left accumulate_stop rs (total, values) =
  (fold_left Qplus (map reading_delay (List.filter reading_included rs)) total,
   values ++ map reading_congestion (List.filter reading_included rs)).
Proof.
  revert total values. induction rs as [|r rs IH]; intros total values.
  - simpl. now rewrite app_nil_r.
  - cbn [fold_left List.filter]. rewrite accumulate_stop_step.
    destruct (reading_included r); [|apply IH].
    rewrite IH. cbn [map fold_left]. now rewrite <- app_assoc.
Qed.

Lemma route_lookup_bind (g : Gtfs coord) (t : Z) (s : AppState) :
  bind (route_id_of g t) (route_name_of g) s =
  (match route_lookup g t with Some n => Ok n | None => Raise "IndexError" end, s).
Proof.
  unfold bind, route_id_of, route_name_of, route_lookup.
  destruct (List.filter _ (trips_df g)) as [|r ?]; [reflexivity|]. unfold ret.
  destruct (List.filter _ (routes_df g)); reflexivity.
Qed.

(** What one iteration of the outer loop produces, from the readings of
    its second pass over the stops. *)
Lemma evaluate_trip_spec (g : Gtfs coord) (t : Z) (s : AppState) :
  exists times s1 rs s2,
    get_estimated_times upstream (get_ordered_stops_for_trip g t) s = (Ok times, s1) /\
    read_all upstream (get_ordered_stops_for_trip g t) s1 = (Ok rs, s2) /\
    evaluate_trip upstream g t s =
    (match List.filter reading_included rs with
     | [] => Ok None
     | _ :: _ =>
         match route_lookup g t with
         | Some n =>
             Ok (Some {| route_name := n;
                         trip_id := t;
                         stops := length (get_ordered_stops_for_trip g t);
                         avg_congestion :=
                           round2 (mean (map reading_congestion
                                           (List.filter reading_included rs)));
                         est_delay_min :=
                           round2 (py_sum (map reading_delay
                                             (List.filter reading_included rs)));
                         coordinates :=
                           map (fun st => (lat st, lon st)) (get_ordered_stops_for_trip g t);
                         congestion_values :=
                           map reading_congestion (List.filter reading_included rs);
                         etas := times |})
         | None => Raise "IndexError"
         end
     end, s2).
Proof.
  destruct (get_estimated_times_returns (get_ordered_stops_for_trip g t) 0 s)
    as (times & s1 & Et).
  change (get_estimated_times upstream (get_ordered_stops_for_trip g t) s = (Ok times, s1))
    in Et.
  destruct (read_all_returns (get_ordered_stops_for_trip g t) s1) as (rs & s2 & Er).
  exists times, s1, rs, s2. split; [exact Et|]. split; [exact Er|].
  unfold evaluate_trip, bind at 1. rewrite Et.
  unfold bind at 1. rewrite (score_stops_fold _ _ _ _ _ Er), fold_accumulate.
  cbn [app]. fold (py_sum (map reading_delay (List.filter reading_included rs))).
  destruct (List.filter reading_included rs) as [|r0 incl]; [reflexivity|].
  cbn [map].
  pose proof (route_lookup_bind g t s2) as Hl. unfold bind in Hl |- *.
  destruct (route_id_of g t s2) as [[rid|e] s3] eqn:E1.
  - destruct (route_name_of g rid s3) as [[n|e] s4] eqn:E2.
    + destruct (route_lookup g t); [|discriminate]. now injection Hl as -> ->.
    + destruct (route_lookup g t); [discriminate|]. now injection Hl as -> ->.
  - destruct (route_lookup g t); [discriminate|]. now injection Hl as -> ->.
Qed.
End RouteFacts.

Section EvaluateFacts.
Context {coord : Type} `{PyFloat coord}.
Variable upstream : nat -> coord -> coord -> Outcome.
Import App.

(** Every entry of [route_scores] comes from a trip with at least one
    counted stop and reports the rounded mean of its congestion values;
    entries follow the order of [trip_ids]. *)
Lemma collect_scores_inv (g : Gtfs coord) (trip_ids : list Z) (s : AppState) scs s' :
  collect_scores upstream g trip_ids s = (Ok scs, s') ->
  sublist (map trip_id scs) trip_ids /\ Forall scored scs.
Proof.
  revert s scs s'. induction trip_ids as [|t rest IH]; intros s scs s'; simpl.
  - unfold ret. intros [= <- <-]. split; constructor.
  - unfold bind at 1.
    destruct (evaluate_trip_spec upstream g t s) as (times & s1 & rs & s2 & _ & _ & ->).
    destruct (List.filter reading_included rs) as [|r0 incl] eqn:Ei.
    + unfold bind. destruct (collect_scores upstream g rest s2) as [[scs1|e] s3] eqn:Er;
        [|discriminate].
      unfold ret. intros [= <- <-]. destruct (IH _ _ _ Er) as [Hsub Hall].
      split; [now apply sublist_cons | exact Hall].
    + destruct (route_lookup g t) as [n|]; [|discriminate].
      unfold bind. destruct (collect_scores upstream g rest s2) as [[scs1|e] s3] eqn:Er;
        [|discriminate].
      unfold ret. intros [= <- <-]. destruct (IH _ _ _ Er) as [Hsub Hall].
      split; [simpl; now apply sublist_skip|].
      constructor; [|exact Hall]. split; [discriminate | reflexivity].
Qed.

Lemma collect_scores_returns (g : Gtfs coord) (trip_ids : list Z) (s : AppState) :
  Forall (fun t => is_Some (route_lookup g t)) trip_ids ->
  exists scs s', collect_scores upstream g trip_ids s = (Ok scs, s').
Proof.
  intros Hall. revert s. induction Hall as [|t rest [n Hn] _ IH]; intros s; simpl.
  - unfold ret. eauto.
  - unfold bind at 1.
    destruct (evaluate_trip_spec upstream g t s) as (times & s1 & rs & s2 & _ & _ & ->).
    rewrite Hn. unfold bind.
    destruct (IH s2) as (scs & s3 & ->).
    destruct (List.filter reading_included rs); unfold ret; eauto.
Qed.

(** The loop raises only the [IndexError] of a route lookup. *)
Lemma collect_scores_raises (g : Gtfs coord) (trip_ids : list Z) (s : AppState) e s' :
  collect_scores upstream g trip_ids s = (Raise e, s') ->
  e = "IndexError" /\ exists t, In t trip_ids /\ route_lookup g t = None.
Proof.
  revert s. induction trip_ids as [|t rest IH]; intros s; simpl;
    [unfold ret; discriminate|].
  unfold bind at 1.
  destruct (evaluate_trip_spec upstream g t s) as (times & s1 & rs & s2 & _ & _ & ->).
  assert (Hrest : forall r : option (RouteScore coord),
             bind (collect_scores upstream g rest)
                  (fun scores => ret (match r with Some sc => sc :: scores | None => scores end))
                  s2 = (Raise e, s') ->
             e = "IndexError" /\ exists t', In t' (t :: rest) /\ route_lookup g t' = None).
  { intros r. unfold bind.
    destruct (collect_scores upstream g rest s2) as [[scs|e'] s3] eqn:Er;
      [unfold ret; discriminate|].
    intros [= -> ->]. destruct (IH _ Er) as (He & t' & Hin & Hl).
    split; [exact He|]. exists t'. split; [now right | exact Hl]. }
  destruct (List.filter reading_included rs); [exact (Hrest None)|].
  destruct (route_lookup g t) eqn:El; [exact (Hrest (Some _))|].
  intros [= <- <-]. split; [reflexivity|]. exists t. split; [now left | exact El].
Qed.

Lemma evaluate_routes_sorted (g : Gtfs coord) (trip_ids : list Z) (s : AppState) :
  match evaluate_routes upstream g trip_ids s with
  | (Ok scores, _) =>
      StronglySorted (fun a b => (est_delay_min a <= est_delay_min b)%Q) scores /\
      Forall scored scores
  | (Raise _, _) => True
  end.
Proof.
  unfold evaluate_routes, bind.
  destruct (collect_scores upstream g trip_ids s) as [[scs|e] s1] eqn:E; [|exact I].
  simpl. destruct (collect_scores_inv _ _ _ _ _ E) as [_ Hall]. split.
  - eapply StronglySorted_weaken;
      [|apply (py_sorted_sorted Qle_bool est_delay_min Qle_bool_total Qle_bool_trans)].
    intros a b. apply Qle_bool_iff.
  - eapply Permutation_Forall; [symmetry; apply py_sorted_perm | exact Hall].
Qed.
End EvaluateFacts.

(** C5.  Whenever [evaluate_routes] returns, the list it returns is in
    ascending order of [est_delay_min]; it is a rearrangement of the
    entries in the order the loop produced them, which is the order of
    [trip_ids]; and for every delay value the entries with that delay
    appear in the same relative order as in that list.  It fails to return
    only by the [IndexError] of a trip whose route cannot be looked up, and
    it does return when the route of every requested trip can be. *)
Theorem C5_evaluate_routes_sorted_stable {coord : Type} `{PyFloat coord}
    (upstream : nat -> coord -> coord -> Outcome)
    (g : App.Gtfs coord) (trip_ids : list Z) (s : App.AppState) :
  match App.evaluate_routes upstream g trip_ids s with
  | (Ok scores, _) =>
      StronglySorted (fun a b => (App.est_delay_min a <= App.est_delay_min b)%Q) scores /\
      exists route_scores,
        Permutation scores route_scores /\
        sublist (map App.trip_id route_scores) trip_ids /\
        forall d : Q,
          List.filter (fun r => Qeq_bool (App.est_delay_min r) d) scores =
          List.filter (fun r => Qeq_bool (App.est_delay_min r) d) route_scores
  | (Raise e, _) =>
      e = "IndexError" /\ exists t, In t trip_ids /\ App.route_lookup g t = None
  end /\
  (Forall (fun t => is_Some (App.route_lookup g t)) trip_ids ->
   exists scores s', App.evaluate_routes upstream g trip_ids s = (Ok scores, s')).
Proof.
  pose proof (evaluate_routes_sorted upstream g trip_ids s) as Hs.
  unfold App.evaluate_routes, bind in Hs |- *.
  destruct (App.collect_scores upstream g trip_ids s) as [[scs|e] s1] eqn:E.
  - simpl in Hs |- *. split; [|eauto]. split; [apply Hs|].
    exists scs. split; [apply py_sorted_perm|].
    split; [apply (collect_scores_inv _ _ _ _ _ _ E)|].
    intros d. apply py_sorted_stable.
    intros a b Ha Hb. apply Qeq_bool_iff in Ha, Hb. apply Qle_bool_iff.
    rewrite Ha, Hb. apply Qle_refl.
  - split.
    + apply (collect_scores_raises _ _ _ _ _ _ E).
    + intros Hall.
      destruct (collect_scores_returns upstream g trip_ids s Hall) as (scs & s2 & E').
      congruence.
Qed.

Lemma C5_evaluate_routes_sorted_stable_witness :
  exists scores s',
    App.evaluate_routes Examples.abc_speeds Examples.abc [100%Z; 100%Z] Examples.state0
    = (Ok scores, s').
Proof.
  apply (proj2 (C5_evaluate_routes_sorted_stable Examples.abc_speeds Examples.abc
                  [100%Z; 100%Z] Examples.state0)).
  repeat constructor; eexists; reflexivity.
Defined.



(** The three-stop scenario end to end: one entry, 16.67 and 0.75. *)
Example evaluate_routes_abc :
  exists sc s',
    App.evaluate_routes Examples.abc_speeds Examples.abc [100%Z] Examples.state0
      = (Ok [sc], s') /\
    App.avg_congestion sc = 1667 # 100 /\ App.est_delay_min sc = 75 # 100.
Proof. eexists _, _. split; [vm_compute; reflexivity|]. split; reflexivity. Qed.


(* ===================================================================== *)
(** * app.py: finding the trips between two stops                         *)
(* ===================================================================== *)

Lemma lower_ascii_idem (c : ascii) : lower_ascii (lower_ascii c) = lower_ascii c.
Proof. destruct c as [[] [] [] [] [] [] [] []]; reflexivity. Qed.

Lemma str_lower_idem (s : string) : str_lower (str_lower s) = str_lower s.
Proof. induction s as [|c s IH]; simpl; [reflexivity|]. now rewrite lower_ascii_idem, IH. Qed.




Lemma insert_uniq_In (x y : Z) (l : list Z) :
  In y (App.insert_uniq x l) <-> y = x \/ In y l.
Proof.
  induction l as [|z l IH]; simpl; [intuition congruence|].
  destruct (Z.ltb_spec x z); simpl; [intuition congruence|].
  destruct (Z.eqb_spec x z) as [->|]; simpl; [intuition congruence|].
  rewrite IH. intuition congruence.
Qed.

Lemma insert_uniq_sorted (x : Z) (l : list Z) :
  StronglySorted Z.lt l -> StronglySorted Z.lt (App.insert_uniq x l).
Proof.
  induction 1 as [|z l Hl IH Hz]; simpl; [repeat constructor|].
  destruct (Z.ltb_spec x z).
  - constructor; [now constructor|]. constructor; [assumption|].
    eapply List.Forall_impl; [|exact Hz]. intros; lia.
  - destruct (Z.eqb_spec x z); [now constructor|].
    constructor; [exact IH|].
    apply List.Forall_forall. intros y Hy. apply insert_uniq_In in Hy as [->|Hy]; [lia|].
    rewrite List.Forall_forall in Hz. now apply Hz.
Qed.


Lemma group_keys_sorted (rows : list App.StopTimeRow) :
  StronglySorted Z.lt (App.group_keys rows).
Proof.
  unfold App.group_keys. induction (map App.st_trip_id rows); simpl;
    [constructor | now apply insert_uniq_sorted].
Qed.

Lemma filter_sorted (P : Z -> bool) (l : list Z) :
  StronglySorted Z.lt l -> StronglySorted Z.lt (List.filter P l).
Proof.
  induction 1 as [|z l Hl IH Hz]; simpl; [constructor|].
  destruct (P z); [|exact IH]. constructor; [exact IH|].
  apply List.Forall_forall. intros y Hy. apply List.filter_In in Hy as [Hy _].
  rewrite List.Forall_forall in Hz. now apply Hz.
Qed.

Lemma get_stop_id_by_name_lower {coord : Type} (g : App.Gtfs coord) (name : string) :
  App.get_stop_id_by_name g (str_lower name) = App.get_stop_id_by_name g name.
Proof. unfold App.get_stop_id_by_name. now rewrite str_lower_idem. Qed.





(* ===================================================================== *)
(** * traffic_collector.py: retries, incident counts, persisted samples   *)
(* ===================================================================== *)

Section CollectorFacts.
Context {coord : Type}.
Variable net : nat -> Collector.Url coord -> Outcome.
Variable utcnow : nat -> Z.
Import Collector.

Lemma backoff_run (attempt : nat) (w : World coord) :
  exists w', backoff attempt w = (Ok tt, w') /\
             requests w' = requests w /\ clock_reads w' = clock_reads w /\
             traffic_data w' = traffic_data w.
Proof.
  unfold backoff. destruct (attempt <? MAX_RETRIES - 1)%nat; eexists; split;
    try reflexivity; auto.
Qed.

Lemma flow_attempts_retry (point : RoutePoint coord) (attempt : nat) (later : list nat)
    (w : World coord) :
  retryable (net (requests w) (FlowUrl (lat point) (lon point))) ->
  flow_attempts net utcnow point (attempt :: later) w =
  bind (backoff attempt) (fun _ => flow_attempts net utcnow point later) (requested w).
Proof.
  intros Hr. cbn [flow_attempts]. unfold bind at 1, http_get.
  destruct (net (requests w) (FlowUrl (lat point) (lon point))) as [st doc| |];
    simpl in Hr; [|reflexivity|contradiction].
  apply Z.eqb_neq in Hr. now rewrite Hr.
Qed.

(** The incident loop always returns a count and leaves the clock and
    the table alone. *)
Lemma incident_attempts_returns (la lo : coord) (radius_km : Z) (attempts : list nat)
    (w : World coord) :
  exists n w', incident_attempts net la lo radius_km attempts w = (Ok n, w') /\
               clock_reads w' = clock_reads w /\ traffic_data w' = traffic_data w.
Proof.
  revert w. induction attempts as [|attempt later IH]; intros w; cbn [incident_attempts].
  - unfold ret. eauto.
  - unfold bind at 1, http_get.
    assert (Hnext : exists n w',
               bind (backoff attempt)
                    (fun _ => incident_attempts net la lo radius_km later) (requested w)
               = (Ok n, w') /\
               clock_reads w' = clock_reads w /\ traffic_data w' = traffic_data w).
    { unfold bind. destruct (backoff_run attempt (requested w)) as (w1 & -> & _ & Hc & Ht).
      destruct (IH w1) as (n & w2 & -> & Hc2 & Ht2).
      cbn [requested clock_reads traffic_data] in Hc, Ht.
      exists n, w2. split; [reflexivity|]. split; congruence. }
    destruct (net (requests w) (IncidentUrl la lo radius_km)) as [st doc| |].
    + destruct (st =? 200)%Z; [unfold ret; eauto | exact Hnext].
    + exact Hnext.
    + unfold ret. eauto.
Qed.


(** A 200 response on the first attempt ends [get_traffic_data] with a
    sample that carries the reported speeds. *)
Lemma flow_attempts_200 (point : RoutePoint coord) (attempt : nat) (later : list nat)
    (w : World coord) (doc : JsonDoc) :
  net (requests w) (FlowUrl (lat point) (lon point)) = Response 200 doc ->
  exists n w1,
    (match flowSegmentData doc with
     | Some _ => _get_incident_count net (lat point) (lon point) 2
     | None => ret 0%Z
     end) (requested w) = (Ok n, w1) /\
    clock_reads w1 = clock_reads w /\ traffic_data w1 = traffic_data w /\
    flow_attempts net utcnow point (attempt :: later) w =
    (Ok (Some {| Db.point_name := name point;
                 Db.latitude := lat point;
                 Db.longitude := lon point;
                 Db.timestamp := utcnow (clock_reads w);
                 Db.current_speed :=
                   from_option (fun seg => field_get (currentSpeed seg)) None
                               (flowSegmentData doc);
                 Db.free_flow_speed :=
                   from_option (fun seg => field_get (freeFlowSpeed seg)) None
                               (flowSegmentData doc);
                 Db.traffic_incidents := n |}),
     {| requests := requests w1; clock_reads := S (clock_reads w);
        sleeps := sleeps w1; traffic_data := traffic_data w |}).
Proof.
  intros Hnet.
  assert (Hn : exists n w1,
             (match flowSegmentData doc with
              | Some _ => _get_incident_count net (lat point) (lon point) 2
              | None => ret 0%Z
              end) (requested w) = (Ok n, w1) /\
             clock_reads w1 = clock_reads w /\ traffic_data w1 = traffic_data w).
  { destruct (flowSegmentData doc).
    - destruct (incident_attempts_returns (lat point) (lon point) 2
                  (seq 0 MAX_RETRIES) (requested w)) as (n & w1 & E & Hc & Ht).
      exists n, w1. split; [exact E|]. split; [exact Hc | exact Ht].
    - unfold ret. eauto. }
  destruct Hn as (n & w1 & Hn & Hc & Ht). exists n, w1.
  split; [exact Hn|]. split; [exact Hc|]. split; [exact Ht|].
  cbn [flow_attempts]. unfold bind at 1, http_get. rewrite Hnet.
  change (200 =? 200)%Z with true. cbv iota.
  unfold bind at 1. fold (requested w). rewrite Hn.
  unfold bind, read_clock, ret. now rewrite Hc, Ht.
Qed.
End CollectorFacts.

(** C2, as the code has it.  A response whose status is not 200 (403
    included) is handled like a transport failure: the client sleeps
    [attempt + 1] seconds and asks again.  When each of the MAX_RETRIES
    attempts ends that way the query yields [None] after exactly three
    requests and sleeps of 1 s and 2 s, none after the last attempt. *)
Theorem C2_non_200_is_retried {coord : Type}
    (net : nat -> Collector.Url coord -> Outcome) (utcnow : nat -> Z)
    (api_key : option string) (point : Collector.RoutePoint coord)
    (w : Collector.World coord) :
  Collector.key_set api_key = true ->
  (forall i, (i < Collector.MAX_RETRIES)%nat ->
             Collector.retryable
               (net (i + Collector.requests w)%nat
                    (Collector.FlowUrl (Collector.lat point) (Collector.lon point)))) ->
  (forall doc, Collector.retryable (Response 403 doc)) /\
  Collector.get_traffic_data net utcnow api_key point w =
  (Ok None,
   {| Collector.requests := 3 + Collector.requests w;
      Collector.clock_reads := Collector.clock_reads w;
      Collector.sleeps := Collector.sleeps w ++ [1; 2]%Z;
      Collector.traffic_data := Collector.traffic_data w |}).
Proof.
  intros Hkey Hall. split; [intros doc; simpl; discriminate|].
  unfold Collector.get_traffic_data. rewrite Hkey.
  change (seq 0 Collector.MAX_RETRIES) with [0; 1; 2]%nat.
  rewrite flow_attempts_retry by (apply (Hall 0%nat); unfold Collector.MAX_RETRIES; lia).
  unfold bind at 1. cbn [Collector.backoff Nat.ltb Nat.leb Collector.MAX_RETRIES Nat.sub].
  unfold Collector.sleep, modify.
  rewrite flow_attempts_retry by (apply (Hall 1%nat); unfold Collector.MAX_RETRIES; lia).
  unfold bind at 1. cbn [Collector.backoff Nat.ltb Nat.leb Collector.MAX_RETRIES Nat.sub].
  unfold Collector.sleep, modify.
  rewrite flow_attempts_retry by (apply (Hall 2%nat); unfold Collector.MAX_RETRIES; lia).
  unfold bind at 1. cbn. unfold ret. now rewrite <- app_assoc.
Qed.

Lemma C2_non_200_is_retried_witness :
  (forall doc, Collector.retryable (Response 403 doc)) /\
  Collector.get_traffic_data Examples.forbidden Examples.clock (Some "key")
    Examples.mg_road Examples.world0 =
  (Ok None,
   {| Collector.requests := 3; Collector.clock_reads := 0;
      Collector.sleeps := [1; 2]%Z; Collector.traffic_data := [] |}).
Proof.
  apply (C2_non_200_is_retried Examples.forbidden Examples.clock (Some "key")
           Examples.mg_road Examples.world0).
  - reflexivity.
  - intros i _. simpl. discriminate.
Defined.

(** C2 as stated fails: with every request answered 403 the client does
    not stop after the first attempt; it sleeps 1 s and 2 s and makes three
    requests. *)
Lemma C2_forbidden_is_retried :
  let w' := snd (Collector.get_traffic_data Examples.forbidden Examples.clock (Some "key")
                   Examples.mg_road Examples.world0) in
  Examples.forbidden 0
    (Collector.FlowUrl (Collector.lat Examples.mg_road) (Collector.lon Examples.mg_road))
  = Response 403 Examples.no_doc /\
  Collector.requests w' = 3%nat /\
  Collector.sleeps w' = [1; 2]%Z /\
  ~ (Collector.requests w' = 1%nat /\ Collector.sleeps w' = []).
Proof.
  cbv zeta. split; [reflexivity|]. split; [reflexivity|]. split; [reflexivity|].
  intros [Hone _]. vm_compute in Hone. discriminate.
Qed.






(* ===================================================================== *)
(** * traffic_alerts.py and traffic_analyzer.py: the traffic index        *)
(* ===================================================================== *)

Lemma max0_range (x : Q) : (x <= 100 -> 0 <= max0 x <= 100)%Q.
Proof.
  intros Hx. unfold max0. destruct (Qltb 0 x) eqn:E.
  - apply Qltb_lt in E. split; [now apply Qlt_le_weak | exact Hx].
  - split; [apply Qle_refl | discriminate].
Qed.

Lemma min100_le (x : Q) : (Alerts.min100 x <= 100)%Q.
Proof.
  unfold Alerts.min100. destruct (Qltb x 100) eqn:E.
  - apply Qltb_lt in E. now apply Qlt_le_weak.
  - apply Qle_refl.
Qed.



Lemma alert_index_range (cs ffs : SpeedVal) :
  (0 <= Alerts.traffic_index cs ffs <= 100)%Q.
Proof.
  unfold Alerts.traffic_index.
  destruct cs as [c|], ffs as [f|]; try (split; discriminate).
  destruct (Alerts.positive (Some f) && Alerts.positive (Some c));
    [apply max0_range, min100_le | split; discriminate].
Qed.

Lemma ratio_ge_1 (cs ffs : Q) : (0 < ffs -> ffs <= cs -> 1 <= cs / ffs)%Q.
Proof.
  intros Hf Hle. apply Qle_shift_div_l; [exact Hf|]. now rewrite Qmult_1_l.
Qed.

(** C7.  With a positive free-flow speed the traffic index of the alert
    engine and that of the trend analysis lie in [0, 100], and both are 0
    when the current speed is at least the free-flow speed. *)
Theorem C7_traffic_index_bounds (cs ffs : Q) :
  (0 < ffs)%Q ->
  (0 <= Alerts.traffic_index (Some cs) (Some ffs) <= 100)%Q /\
  (0 <= Analyzer.traffic_index cs ffs <= 100)%Q /\
  ((ffs <= cs)%Q ->
   (Alerts.traffic_index (Some cs) (Some ffs) == 0)%Q /\
   (Analyzer.traffic_index cs ffs == 0)%Q).
Proof.
  intros Hf. split; [apply alert_index_range|]. split.
  - unfold Analyzer.traffic_index, Analyzer.clip.
    destruct (Qltb _ 0) eqn:E0; [split; discriminate|].
    destruct (Qltb 100 _) eqn:E1; [split; [discriminate | apply Qle_refl]|].
    apply Qltb_ge in E0, E1. now split.
  - intros Hle. pose proof (ratio_ge_1 cs ffs Hf Hle) as Hr.
    assert (Hx : (100 * (1 - cs / ffs) <= 0)%Q) by lra.
    split.
    + unfold Alerts.traffic_index.
      destruct (Alerts.positive (Some ffs) && Alerts.positive (Some cs)); [|reflexivity].
      unfold Alerts.min100.
      assert (E : Qltb (100 * (1 - cs / ffs)) 100 = true) by (apply Qltb_lt; lra).
      rewrite E. unfold max0.
      assert (E' : Qltb 0 (100 * (1 - cs / ffs)) = false) by (now apply Qltb_ge).
      now rewrite E'.
    + unfold Analyzer.traffic_index, Analyzer.clip.
      destruct (Qltb _ 0) eqn:E0; [reflexivity|].
      assert (E1 : Qltb 100 (100 * (1 - cs / ffs)) = false) by (apply Qltb_ge; lra).
      rewrite E1. apply Qltb_ge in E0. now apply Qle_antisym.
Qed.

Lemma C7_traffic_index_bounds_witness :
  (0 <= Alerts.traffic_index (Some 50%Q) (Some 40%Q) <= 100)%Q /\
  (0 <= Analyzer.traffic_index 50 40 <= 100)%Q /\
  (Alerts.traffic_index (Some 50%Q) (Some 40%Q) == 0)%Q /\
  (Analyzer.traffic_index 50 40 == 0)%Q.
Proof.
  destruct (C7_traffic_index_bounds 50 40 ltac:(reflexivity)) as (Ha & Hb & Hz).
  split; [exact Ha|]. split; [exact Hb|]. apply Hz. discriminate.
Defined.

(* ===================================================================== *)
(** * traffic_alerts.py: the three rules                                  *)
(* ===================================================================== *)




Section AlertFacts.
Context {coord : Type}.
Import Alerts Db.

Implicit Types row : Sample coord.

Lemma speed_ratio_Some row (r : Q) :
  speed_ratio row = Some r <->
  exists cs ffs, current_speed row = Some cs /\ free_flow_speed row = Some ffs /\
                 (0 < cs)%Q /\ (0 < ffs)%Q /\ r = (cs / ffs)%Q.
Proof.
  unfold speed_ratio. split.
  - destruct (current_speed row) as [cs|], (free_flow_speed row) as [ffs|];
      try discriminate.
    destruct (positive (Some ffs) && positive (Some cs)) eqn:E; [|discriminate].
    intros [= <-]. apply andb_true_iff in E as [Hf Hc]. simpl in Hf, Hc.
    apply Qltb_lt in Hf, Hc. exists cs, ffs. auto.
  - intros (cs & ffs & -> & -> & Hc & Hf & ->). simpl.
    apply Qltb_lt in Hc, Hf. now rewrite Hc, Hf.
Qed.

Lemma traffic_index_ratio row :
  traffic_index (current_speed row) (free_flow_speed row) =
  match speed_ratio row with
  | Some r => max0 (min100 (100 * (1 - r)))
  | None => 0%Q
  end.
Proof.
  unfold traffic_index, speed_ratio.
  destruct (current_speed row) as [cs|], (free_flow_speed row) as [ffs|];
    try reflexivity.
  now destruct (positive (Some ffs) && positive (Some cs)).
Qed.

Lemma congestion_alert_types row (t : AlertType) :
  In t (map alert_type (congestion_alert row)) <->
  t = CONGESTION /\
  (80 <= traffic_index (current_speed row) (free_flow_speed row))%Q.
Proof.
  unfold congestion_alert, severe_congestion_threshold.
  destruct (Qle_bool 80 _) eqn:E; simpl.
  - apply Qle_bool_iff in E. intuition congruence.
  - split; [contradiction|]. intros [_ Hle]. apply Qle_bool_iff in Hle. congruence.
Qed.

Lemma incidents_alert_types row (t : AlertType) :
  In t (map alert_type (incidents_alert row)) <->
  t = INCIDENTS /\ (3 <= traffic_incidents row)%Z.
Proof.
  unfold incidents_alert, high_incident_threshold.
  destruct (Z.leb_spec 3 (traffic_incidents row)); simpl; [intuition congruence|].
  split; [contradiction | lia].
Qed.

Lemma speed_alert_types row (t : AlertType) :
  In t (map alert_type (speed_alert row)) <->
  t = SPEED_REDUCTION /\ exists r, speed_ratio row = Some r /\ (r <= 4 # 10)%Q.
Proof.
  unfold speed_alert, speed_ratio, speed_reduction_threshold.
  destruct (current_speed row) as [cs|], (free_flow_speed row) as [ffs|];
    try (simpl; split; [contradiction | intros [_ (r & [=] & _)]]).
  destruct (positive (Some ffs) && positive (Some cs));
    [|simpl; split; [contradiction | intros [_ (r & [=] & _)]]].
  destruct (Qle_bool (cs / ffs) (4 # 10)) eqn:E; simpl.
  - apply Qle_bool_iff in E. split; [intros [<-|[]]; eauto|]. intros [-> _]. now left.
  - split; [contradiction|]. intros [_ (r & [= <-] & Hle)].
    apply Qle_bool_iff in Hle. congruence.
Qed.

Lemma raises_iff row (t : AlertType) :
  raises t row <->
  (t = CONGESTION /\
   (80 <= traffic_index (current_speed row) (free_flow_speed row))%Q) \/
  (t = INCIDENTS /\ (3 <= traffic_incidents row)%Z) \/
  (t = SPEED_REDUCTION /\ exists r, speed_ratio row = Some r /\ (r <= 4 # 10)%Q).
Proof.
  unfold raises, row_alerts.
  rewrite !map_app, !in_app_iff, congestion_alert_types, incidents_alert_types,
    speed_alert_types.
  reflexivity.
Qed.



End AlertFacts.



(* ===================================================================== *)
(** * traffic_alerts.py: saving a batch and marking it notified           *)
(* ===================================================================== *)

Section NotifyFacts.
Import Alerts.

Lemma mark_notified_app (t : Z) (a : Alert) (rows1 rows2 : list AlertRow) :
  mark_notified t a (rows1 ++ rows2) = mark_notified t a rows1 ++ mark_notified t a rows2.
Proof. apply map_app. Qed.

Lemma mark_notified_length (t : Z) (a : Alert) (rows : list AlertRow) :
  length (mark_notified t a rows) = length rows.
Proof. apply length_map. Qed.

(** The update leaves alone the rows saved at another instant. *)
Lemma mark_notified_other (t t0 : Z) (a : Alert) (saved : list Alert) :
  t <> t0 ->
  mark_notified t a (map (row_of t0) saved) = map (row_of t0) saved.
Proof.
  intros Hne. unfold mark_notified. rewrite map_map. apply map_ext. intros b.
  cbn [row_of r_timestamp]. apply Z.eqb_neq in Hne. rewrite Z.eqb_sym in Hne.
  now rewrite Hne, andb_false_r.
Qed.

Lemma mark_all_other (t t0 : Z) (batch saved : list Alert) (older : list AlertRow) :
  t <> t0 ->
  fold_left (fun rs a => mark_notified t a rs) batch (older ++ map (row_of t0) saved) =
  fold_left (fun rs a => mark_notified t a rs) batch older ++ map (row_of t0) saved.
Proof.
  intros Hne. revert older. induction batch as [|a batch IH]; intros older;
    [reflexivity|].
  cbn [fold_left]. rewrite mark_notified_app, mark_notified_other by exact Hne.
  apply IH.
Qed.

Lemma mark_all_length (t : Z) (batch : list Alert) (older : list AlertRow) :
  length (fold_left (fun rs a => mark_notified t a rs) batch older) = length older.
Proof.
  revert older. induction batch as [|a batch IH]; intros older; [reflexivity|].
  cbn [fold_left]. now rewrite IH, mark_notified_length.
Qed.
End NotifyFacts.

(** C1 fails on the code.  A batch is saved with the instant read in
    [_save_alerts]; after the mail has gone out, [_send_alert_email] reads
    the clock again and updates the rows that carry this later instant.
    When the two readings differ, the saved rows are still in the table
    exactly as inserted, with [notified = 0]. *)
Theorem C1_notified_flag_not_set {coord : Type} (utcnow : nat -> Z) (smtp_ok : nat -> bool)
    (alerts : list Alerts.Alert) (w : Alerts.World coord) :
  alerts <> [] ->
  smtp_ok (Alerts.smtp_sessions w) = true ->
  utcnow (S (Alerts.clock_reads w)) <> utcnow (Alerts.clock_reads w) ->
  exists w' older,
    bind (Alerts._save_alerts utcnow alerts)
         (fun _ => Alerts._send_alert_email utcnow smtp_ok alerts) w = (Ok tt, w') /\
    Alerts.outbox w' =
      Alerts.outbox w ++ [py_sorted (fun a b => (b <=? a)%Z) Alerts.severity alerts] /\
    Alerts.traffic_alerts w' =
      older ++ map (Alerts.row_of (utcnow (Alerts.clock_reads w))) alerts /\
    length older = length (Alerts.traffic_alerts w) /\
    Forall (fun r => Alerts.notified r = 0%Z)
           (map (Alerts.row_of (utcnow (Alerts.clock_reads w))) alerts).
Proof.
  intros Hne Hsent Hclock.
  destruct alerts as [|a rest]; [contradiction|].
  unfold bind, Alerts._save_alerts, Alerts._send_alert_email, bind, Alerts.read_clock,
    Alerts.set_alert_table, Alerts.smtp_send, modify.
  cbn [Alerts.smtp_sessions Alerts.clock_reads Alerts.traffic_alerts Alerts.outbox].
  rewrite Hsent.
  eexists _, _. split; [reflexivity|].
  cbn [Alerts.outbox Alerts.traffic_alerts].
  split; [reflexivity|].
  split; [apply mark_all_other; exact Hclock|].
  split; [apply mark_all_length|].
  apply List.Forall_forall. intros r Hr. apply in_map_iff in Hr as (b & <- & _).
  reflexivity.
Qed.

Lemma C1_notified_flag_not_set_witness :
  exists w' older,
    bind (Alerts._save_alerts Examples.clock Examples.batch)
         (fun _ => Alerts._send_alert_email Examples.clock Examples.delivered Examples.batch)
         Examples.alert_world0 = (Ok tt, w') /\
    Alerts.outbox w' =
      Alerts.outbox Examples.alert_world0 ++
      [py_sorted (fun a b => (b <=? a)%Z) Alerts.severity Examples.batch] /\
    Alerts.traffic_alerts w' =
      older ++ map (Alerts.row_of (Examples.clock (Alerts.clock_reads Examples.alert_world0)))
                   Examples.batch /\
    length older = length (Alerts.traffic_alerts Examples.alert_world0) /\
    Forall (fun r => Alerts.notified r = 0%Z)
           (map (Alerts.row_of (Examples.clock (Alerts.clock_reads Examples.alert_world0)))
                Examples.batch).
Proof.
  apply (C1_notified_flag_not_set Examples.clock Examples.delivered Examples.batch
           Examples.alert_world0).
  - intros Hnil. vm_compute in Hnil. discriminate.
  - reflexivity.
  - intros Heq. vm_compute in Heq. discriminate.
Defined.

(** The same run through [check_for_alerts]: one reading at 10 / 50 km/h
    in the last hour, mail configured and delivered; the two rows stay at
    [notified = 0]. *)
Example check_for_alerts_leaves_flag :
  let w := {| Alerts.clock_reads := 1;
              Alerts.traffic_data := [Examples.reading (Some 10%Q) (Some 50%Q) 0];
              Alerts.traffic_alerts := []; Alerts.smtp_sessions := 0;
              Alerts.outbox := [] |} in
  let w' := snd (Alerts.check_for_alerts Examples.clock Examples.delivered
                   Examples.mail_config w) in
  length (Alerts.outbox w') = 1%nat /\
  map Alerts.notified (Alerts.traffic_alerts w') = [0; 0]%Z.
Proof. split; reflexivity. Qed.

(* ===================================================================== *)
(** * app.py: what the lookups of a ranking do to the module state        *)
(* ===================================================================== *)

Section LookupFacts.
Context {coord : Type} `{PyFloat coord}.
Variable upstream : nat -> coord -> coord -> Outcome.
Import App.

Lemma lookups_refl (s : AppState) : lookups 0 s s.
Proof. unfold lookups. repeat split; auto; lia. Qed.

Lemma lookups_trans (n m : nat) (s s1 s2 : AppState) :
  lookups n s s1 -> lookups m s1 s2 -> lookups (n + m) s s2.
Proof.
  intros (Ha & Hb & Hc & Hd & He & Hf) (Ha' & Hb' & Hc' & Hd' & He' & Hf').
  unfold lookups. repeat split; try lia; [congruence | auto].
Qed.

Lemma get_congestion_lookups (la lo : coord) (s : AppState) :
  lookups 1 s (snd (get_congestion upstream la lo s)).
Proof.
  unfold get_congestion.
  destruct (congestion_cache s !! cache_key la lo) as [v|] eqn:Ek.
  - unfold lookups. simpl. repeat split; auto; lia.
  - destruct (upstream (requests s) la lo) as [st doc| |];
      try (unfold lookups; simpl; repeat split; auto; lia).
    destruct (st =? 200)%Z; [|unfold lookups; simpl; repeat split; auto; lia].
    destruct (read_speeds doc) as [[cs ffs]|];
      [|unfold lookups; simpl; repeat split; auto; lia].
    unfold lookups. simpl. repeat split; auto; try lia.
    intros key v Hv. rewrite lookup_insert_ne; [exact Hv|]. congruence.
Qed.

Lemma read_all_lookups (stops : list (StopInfo coord)) (s : AppState) rs s' :
  read_all upstream stops s = (Ok rs, s') ->
  lookups (length stops) s s' /\ length rs = length stops.
Proof.
  revert s rs s'. induction stops as [|stop rest IH]; intros s rs s'; simpl.
  - unfold ret. intros [= <- <-]. split; [apply lookups_refl | reflexivity].
  - unfold bind.
    pose proof (get_congestion_lookups (lat stop) (lon stop) s) as H1.
    destruct (get_congestion_returns upstream (lat stop) (lon stop) s) as (r & s1 & E).
    rewrite E in H1 |- *. simpl in H1.
    destruct (read_all upstream rest s1) as [[rs1|e] s2] eqn:Er; [|discriminate].
    unfold ret. intros [= <- <-]. destruct (IH _ _ _ Er) as [Hl Hlen].
    split; [apply (lookups_trans 1 _ _ _ _ H1 Hl) | simpl; now rewrite Hlen].
Qed.

(** The ETA pass reads the same speeds as a plain pass over the stops and
    builds its entries from them. *)
Lemma get_estimated_times_etas (stops : list (StopInfo coord)) (t0 : Q) (s : AppState)
    rs s' :
  read_all upstream stops s = (Ok rs, s') ->
  get_estimated_times_from upstream t0 stops s = (Ok (etas_of t0 rs), s').
Proof.
  revert t0 s rs s'. induction stops as [|stop rest IH]; intros t0 s rs s';
    cbn [read_all get_estimated_times_from].
  - unfold ret. now intros [= <- <-].
  - unfold bind at 1 3.
    destruct (get_congestion_returns upstream (lat stop) (lon stop) s) as (r & s1 & ->).
    unfold bind at 1.
    destruct (read_all upstream rest s1) as [[rs1|e] s2] eqn:Er; [|discriminate].
    unfold ret at 1. intros [= <- <-].
    destruct r as [[cs|] [fs|]]; cbn [etas_of];
      try (unfold bind; rewrite (IH _ _ _ _ Er); reflexivity).
    destruct (truthy (Some cs) && truthy (Some fs));
      unfold bind; rewrite (IH _ _ _ _ Er); reflexivity.
Qed.

Lemma evaluate_trip_lookups (g : Gtfs coord) (t : Z) (s : AppState) :
  lookups (2 * length (get_ordered_stops_for_trip g t)) s
          (snd (evaluate_trip upstream g t s)).
Proof.
  destruct (evaluate_trip_spec upstream g t s) as (times & s1 & rs & s2 & Et & Er & ->).
  cbn [snd].
  destruct (read_all_returns upstream (get_ordered_stops_for_trip g t) s) as (rs0 & s0 & E0).
  pose proof (get_estimated_times_etas _ 0 _ _ _ E0) as Et'.
  unfold get_estimated_times in Et. rewrite Et' in Et. injection Et as _ <-.
  destruct (read_all_lookups _ _ _ _ E0) as [H1 _].
  destruct (read_all_lookups _ _ _ _ Er) as [H2 _].
  replace (2 * length (get_ordered_stops_for_trip g t))%nat
    with (length (get_ordered_stops_for_trip g t)
          + length (get_ordered_stops_for_trip g t))%nat by lia.
  exact (lookups_trans _ _ _ _ _ H1 H2).
Qed.

Lemma collect_scores_lookups (g : Gtfs coord) (trip_ids : list Z) (s : AppState) :
  match collect_scores upstream g trip_ids s with
  | (Ok _, s') => lookups (2 * stops_walked g trip_ids) s s'
  | (Raise _, s') => exists n, (n <= 2 * stops_walked g trip_ids)%nat /\ lookups n s s'
  end.
Proof.
  revert s. induction trip_ids as [|t rest IH]; intros s; cbn [collect_scores].
  - apply lookups_refl.
  - unfold bind at 1. pose proof (evaluate_trip_lookups g t s) as Ht.
    change (stops_walked g (t :: rest))
      with (length (get_ordered_stops_for_trip g t) + stops_walked g rest)%nat.
    set (k := length (get_ordered_stops_for_trip g t)) in *.
    destruct (evaluate_trip upstream g t s) as [[r|e] s1]; cbn [snd] in Ht.
    + unfold bind. specialize (IH s1).
      destruct (collect_scores upstream g rest s1) as [[scs|e] s2].
      * unfold ret.
        replace (2 * (k + stops_walked g rest))%nat
          with (2 * k + 2 * stops_walked g rest)%nat by lia.
        exact (lookups_trans _ _ _ _ _ Ht IH).
      * destruct IH as (n & Hn & Hl). exists (2 * k + n)%nat.
        split; [lia | exact (lookups_trans _ _ _ _ _ Ht Hl)].
    + exists (2 * k)%nat. split; [lia | exact Ht].
Qed.
End LookupFacts.

(** Entries of the congestion cache are never refreshed or dropped: what
    is cached before a ranking is cached, with the same speeds, after it,
    whether the ranking returns or raises. *)
Theorem evaluate_routes_keeps_cache_entries {coord : Type} `{PyFloat coord}
    (upstream : nat -> coord -> coord -> Outcome)
    (g : App.Gtfs coord) (trip_ids : list Z) (s : App.AppState) :
  App.congestion_cache s ⊆
  App.congestion_cache (snd (App.evaluate_routes upstream g trip_ids s)).
Proof.
  apply map_subseteq_spec. intros key v Hv.
  pose proof (collect_scores_lookups upstream g trip_ids s) as Hl.
  unfold App.evaluate_routes, bind.
  destruct (App.collect_scores upstream g trip_ids s) as [[scs|e] s1]; simpl.
  - now apply Hl.
  - destruct Hl as (n & _ & Hl). now apply Hl.
Qed.

(** A ranking that returns has looked every stop of every requested trip
    up twice (once for the ETAs, once for the scores): cache hits and
    requests together grow by twice the number of stops walked, and
    [api_calls] grows by no more than the requests.  A ranking that raises
    has done at most that many lookups. *)
Theorem evaluate_routes_lookup_accounting {coord : Type} `{PyFloat coord}
    (upstream : nat -> coord -> coord -> Outcome)
    (g : App.Gtfs coord) (trip_ids : list Z) (s : App.AppState) :
  let s' := snd (App.evaluate_routes upstream g trip_ids s) in
  (App.api_calls s' - App.api_calls s <= App.requests s' - App.requests s)%nat /\
  (App.requests s <= App.requests s')%nat /\
  match fst (App.evaluate_routes upstream g trip_ids s) with
  | Ok _ =>
      (App.cache_hits s' + App.requests s'
       = App.cache_hits s + App.requests s + 2 * App.stops_walked g trip_ids)%nat
  | Raise _ =>
      (App.cache_hits s' + App.requests s'
       <= App.cache_hits s + App.requests s + 2 * App.stops_walked g trip_ids)%nat
  end.
Proof.
  pose proof (collect_scores_lookups upstream g trip_ids s) as Hl.
  unfold App.evaluate_routes, bind.
  destruct (App.collect_scores upstream g trip_ids s) as [[scs|e] s1]; simpl.
  - destruct Hl as (Ha & Hb & Hc & Hd & _). repeat split; lia.
  - destruct Hl as (n & Hn & Ha & Hb & Hc & Hd & _). repeat split; lia.
Qed.

(** The cache file is rewritten with the whole cache when a ranking
    returns, and is left as it was when the ranking raises, though the
    cache in memory may have grown. *)
Theorem evaluate_routes_cache_file {coord : Type} `{PyFloat coord}
    (upstream : nat -> coord -> coord -> Outcome)
    (g : App.Gtfs coord) (trip_ids : list Z) (s : App.AppState) :
  let s' := snd (App.evaluate_routes upstream g trip_ids s) in
  match fst (App.evaluate_routes upstream g trip_ids s) with
  | Ok _ => App.cache_file s' = App.congestion_cache s'
  | Raise _ => App.cache_file s' = App.cache_file s
  end.
Proof.
  pose proof (collect_scores_lookups upstream g trip_ids s) as Hl.
  unfold App.evaluate_routes, bind.
  destruct (App.collect_scores upstream g trip_ids s) as [[scs|e] s1]; simpl.
  - reflexivity.
  - destruct Hl as (n & _ & Hl). apply Hl.
Qed.

(** A lookup that misses the cache and gets no usable answer (a status
    other than 200, an exception, or a 200 body without the two speed
    keys) yields [(None, None)] after one request and caches nothing, so
    the next lookup of the same point asks the endpoint again. *)
Theorem get_congestion_failure_not_cached {coord : Type} `{PyFloat coord}
    (upstream upstream' : nat -> coord -> coord -> Outcome)
    (s : App.AppState) (la lo : coord) :
  App.congestion_cache s !! App.cache_key la lo = None ->
  (forall doc, upstream (App.requests s) la lo = Response 200 doc ->
               App.read_speeds doc = None) ->
  exists s1,
    App.get_congestion upstream la lo s = (Ok (None, None), s1) /\
    App.congestion_cache s1 = App.congestion_cache s /\
    App.requests s1 = S (App.requests s) /\
    App.cache_hits s1 = App.cache_hits s /\
    App.requests (snd (App.get_congestion upstream' la lo s1)) = S (App.requests s1).
Proof.
  intros Hmiss Hbad.
  assert (Hfirst : exists s1,
             App.get_congestion upstream la lo s = (Ok (None, None), s1) /\
             App.congestion_cache s1 = App.congestion_cache s /\
             App.requests s1 = S (App.requests s) /\
             App.cache_hits s1 = App.cache_hits s).
  { unfold App.get_congestion. rewrite Hmiss.
    destruct (upstream (App.requests s) la lo) as [st doc| |] eqn:E;
      [|eexists; repeat split..].
    destruct (Z.eqb_spec st 200) as [->|Hne]; [|eexists; repeat split].
    rewrite (Hbad doc eq_refl). eexists. repeat split. }
  destruct Hfirst as (s1 & E1 & Hc & Hr & Hh). exists s1.
  split; [exact E1|]. split; [exact Hc|]. split; [exact Hr|]. split; [exact Hh|].
  unfold App.get_congestion. rewrite Hc, Hmiss.
  destruct (upstream' (App.requests s1) la lo) as [st doc| |]; try reflexivity.
  destruct (st =? 200)%Z; [|reflexivity].
  destruct (App.read_speeds doc) as [[cs ffs]|]; reflexivity.
Qed.

Lemma get_congestion_failure_not_cached_witness :
  exists s1,
    App.get_congestion (fun _ _ _ => Response 503 Examples.no_doc)
      (129758 # 10000) (776045 # 10000) Examples.state0 = (Ok (None, None), s1) /\
    App.congestion_cache s1 = App.congestion_cache Examples.state0 /\
    App.requests s1 = S (App.requests Examples.state0) /\
    App.cache_hits s1 = App.cache_hits Examples.state0 /\
    App.requests (snd (App.get_congestion Examples.abc_speeds
                         (129758 # 10000) (776045 # 10000) s1)) = S (App.requests s1).
Proof.
  apply (get_congestion_failure_not_cached (fun _ _ _ => Response 503 Examples.no_doc)
           Examples.abc_speeds Examples.state0 (129758 # 10000) (776045 # 10000)).
  - reflexivity.
  - intros doc Hdoc. discriminate Hdoc.
Defined.



(** While no stop reports a current speed above its free-flow speed the
    clock of [get_estimated_times] never moves back. *)
Lemma etas_of_sorted (t0 : Q) (rs : list (SpeedVal * SpeedVal)) :
  Forall (fun r => match r with
                   | (Some cs, Some fs) => (cs / fs <= 1)%Q
                   | _ => True
                   end) rs ->
  StronglySorted Qle (t0 :: omap id (App.etas_of t0 rs)).
Proof.
  intros Hall. revert t0.
  induction Hall as [|[[cs|] [fs|]] rs Hr _ IH]; intros t0; cbn [App.etas_of];
    [repeat constructor| |cbn [omap id]; apply IH..].
  destruct (truthy (Some cs) && truthy (Some fs)); [|cbn [omap id]; apply IH].
  cbn [omap id]. specialize (IH (t0 + (1 - cs / fs) * (3 # 2))%Q).
  assert (Hstep : (t0 <= t0 + (1 - cs / fs) * (3 # 2))%Q).
  { set (r := (cs / fs)%Q) in *. lra. }
  constructor; [exact IH|].
  apply StronglySorted_inv in IH as [_ Hrest].
  constructor; [exact Hstep|].
  eapply List.Forall_impl; [|exact Hrest]. intros x Hx. eapply Qle_trans; eassumption.
Qed.


(** When none of the speeds read has the current speed above the
    free-flow speed, the estimated times are in non-decreasing order and
    none is before the base time. *)
Theorem get_estimated_times_never_back {coord : Type} `{PyFloat coord}
    (upstream : nat -> coord -> coord -> Outcome)
    (stops : list (App.StopInfo coord)) (s : App.AppState)
    (rs : list (SpeedVal * SpeedVal)) :
  fst (App.read_all upstream stops s) = Ok rs ->
  Forall (fun r => match r with
                   | (Some cs, Some fs) => (cs / fs <= 1)%Q
                   | _ => True
                   end) rs ->
  exists times,
    fst (App.get_estimated_times upstream stops s) = Ok times /\
    StronglySorted Qle (0%Q :: omap id times).
Proof.
  intros Er Hall.
  destruct (App.read_all upstream stops s) as [r s'] eqn:E. cbn [fst] in Er. subst r.
  exists (App.etas_of 0 rs). split.
  - unfold App.get_estimated_times. now rewrite (get_estimated_times_etas _ _ _ _ _ _ E).
  - now apply etas_of_sorted.
Qed.

Lemma get_estimated_times_never_back_witness :
  exists times,
    fst (App.get_estimated_times Examples.abc_speeds
           (App.get_ordered_stops_for_trip Examples.abc 100) Examples.state0) = Ok times /\
    StronglySorted Qle (0%Q :: omap id times).
Proof.
  apply (get_estimated_times_never_back Examples.abc_speeds
           (App.get_ordered_stops_for_trip Examples.abc 100) Examples.state0
           [(Some 30%Q, Some 30%Q); (Some 15%Q, Some 30%Q); (Some 30%Q, Some 30%Q)]).
  - reflexivity.
  - repeat constructor; discriminate.
Defined.

(* ===================================================================== *)
(** * app.py: stops of a trip, direction of a trip, ranking found trips   *)
(* ===================================================================== *)

Lemma stop_info_of_Some {coord : Type} (g : App.Gtfs coord) (row : App.StopTimeRow)
    (si : App.StopInfo coord) :
  App.stop_info_of g row = Some si ->
  App.si_stop_id si = App.st_stop_id row /\
  exists r, In r (App.stops_df g) /\ App.stop_id r = App.si_stop_id si /\
            App.stop_name r = App.si_stop_name si /\
            App.stop_lat r = Some (App.lat si) /\ App.stop_lon r = Some (App.lon si).
Proof.
  unfold App.stop_info_of.
  destruct (List.filter _ (App.stops_df g)) as [|r rest] eqn:E; [discriminate|].
  assert (Hin : In r (List.filter (fun s => (App.stop_id s =? App.st_stop_id row)%Z)
                                  (App.stops_df g))) by (rewrite E; now left).
  apply List.filter_In in Hin as [Hin Hid]. apply Z.eqb_eq in Hid.
  destruct (App.stop_lat r) as [la|] eqn:Ela; [|discriminate].
  destruct (App.stop_lon r) as [lo|] eqn:Elo; [|discriminate].
  intros [= <-]. split; [reflexivity|]. exists r. simpl. auto.
Qed.

(** The stops [get_ordered_stops_for_trip] returns are calls of the trip,
    in the order of the trip; a call whose stop is not in the stop table,
    or has a coordinate that is not a number, is left out, so the list can
    be shorter than the trip.  Each stop returned carries the name and the
    coordinates of a row of the stop table with its id. *)
Theorem get_ordered_stops_for_trip_calls {coord : Type} (g : App.Gtfs coord) (t : Z) :
  sublist (map App.si_stop_id (App.get_ordered_stops_for_trip g t))
          (App.trip_stop_ids g t) /\
  (length (App.get_ordered_stops_for_trip g t) <= length (App.trip_stop_ids g t))%nat /\
  Forall (fun si =>
            exists r, In r (App.stops_df g) /\ App.stop_id r = App.si_stop_id si /\
                      App.stop_name r = App.si_stop_name si /\
                      App.stop_lat r = Some (App.lat si) /\
                      App.stop_lon r = Some (App.lon si))
         (App.get_ordered_stops_for_trip g t).
Proof.
  unfold App.get_ordered_stops_for_trip, App.trip_stop_ids.
  induction (App.trip_rows g t) as [|row rows (IHs & IHl & IHf)].
  - split; [constructor|]. split; [reflexivity | constructor].
  - simpl. destruct (App.stop_info_of g row) as [si|] eqn:E.
    + destruct (stop_info_of_Some g row si E) as [Hid Hrow].
      simpl. rewrite Hid. split; [now apply sublist_skip|].
      split; [apply -> Nat.succ_le_mono; exact IHl | now constructor].
    + split; [now apply sublist_cons|].
      split; [apply Nat.le_le_succ_r; exact IHl | exact IHf].
Qed.

Lemma trip_qualifies_irrefl (s : Z) (stop_ids : list Z) :
  App.trip_qualifies s s stop_ids = false.
Proof.
  unfold App.trip_qualifies. destruct (py_index s stop_ids) as [i|].
  - rewrite Nat.ltb_irrefl. now rewrite andb_false_r.
  - now rewrite andb_false_r.
Qed.

Lemma trip_qualifies_asym (s d : Z) (stop_ids : list Z) :
  App.trip_qualifies s d stop_ids = true -> App.trip_qualifies d s stop_ids = false.
Proof.
  unfold App.trip_qualifies.
  destruct (py_index s stop_ids) as [i|], (py_index d stop_ids) as [j|];
    rewrite ?andb_false_r; try discriminate.
  rewrite !andb_true_iff. intros [_ Hlt]. apply Nat.ltb_lt in Hlt.
  apply andb_false_iff. right. apply Nat.ltb_ge. lia.
Qed.

Lemma find_routes_between_In {coord : Type} (g : App.Gtfs coord) (a b : string) (t : Z) :
  In t (App.find_routes_between g a b) ->
  exists s d, App.get_stop_id_by_name g a = Some s /\
              App.get_stop_id_by_name g b = Some d /\
              App.trip_qualifies s d (App.trip_stop_ids g t) = true.
Proof.
  unfold App.find_routes_between.
  destruct (App.falsy_id (App.get_stop_id_by_name g a)
            || App.falsy_id (App.get_stop_id_by_name g b)); [contradiction|].
  destruct (App.get_stop_id_by_name g a) as [s|]; [|contradiction].
  destruct (App.get_stop_id_by_name g b) as [d|]; [|contradiction].
  intros Hin. apply List.filter_In in Hin as [_ Hq]. eauto.
Qed.

Lemma find_routes_between_sorted {coord : Type} (g : App.Gtfs coord) (a b : string) :
  StronglySorted Z.lt (App.find_routes_between g a b).
Proof.
  unfold App.find_routes_between.
  destruct (App.falsy_id (App.get_stop_id_by_name g a)
            || App.falsy_id (App.get_stop_id_by_name g b)); [constructor|].
  destruct (App.get_stop_id_by_name g a) as [s|]; [|constructor].
  destruct (App.get_stop_id_by_name g b) as [d|]; [|constructor].
  apply filter_sorted, group_keys_sorted.
Qed.

Lemma ascending_NoDup (l : list Z) : StronglySorted Z.lt l -> NoDup l.
Proof.
  induction 1 as [|x l _ IH Hx]; constructor; [|exact IH].
  intros Hin. apply list_elem_of_In in Hin.
  rewrite List.Forall_forall in Hx. specialize (Hx x Hin). lia.
Qed.

(** [find_routes_between] is directed: no trip is found from a stop to
    itself (whatever the letter case of the two names), and a trip found
    from one stop to another is not found for the way back. *)
Theorem find_routes_between_directed {coord : Type} (g : App.Gtfs coord) (a b : string) :
  (str_lower a = str_lower b -> App.find_routes_between g a b = []) /\
  (forall t, In t (App.find_routes_between g a b) ->
             ~ In t (App.find_routes_between g b a)).
Proof.
  split.
  - intros Hab.
    destruct (App.find_routes_between g a b) as [|t rest] eqn:E; [reflexivity|].
    exfalso.
    destruct (find_routes_between_In g a b t) as (s & d & Hs & Hd & Hq);
      [rewrite E; now left|].
    rewrite <- (get_stop_id_by_name_lower g a), Hab, get_stop_id_by_name_lower in Hs.
    rewrite Hs in Hd. injection Hd as <-.
    rewrite trip_qualifies_irrefl in Hq. discriminate.
  - intros t Hab Hba.
    destruct (find_routes_between_In g a b t Hab) as (s & d & Hs & Hd & Hq).
    destruct (find_routes_between_In g b a t Hba) as (d' & s' & Hd' & Hs' & Hq').
    rewrite Hs in Hs'. rewrite Hd in Hd'. injection Hs' as <-. injection Hd' as <-.
    rewrite (trip_qualifies_asym _ _ _ Hq) in Hq'. discriminate.
Qed.

Lemma find_routes_between_directed_witness :
  App.find_routes_between Examples.abc "a" "A" = [] /\
  ~ In 100%Z (App.find_routes_between Examples.abc "c" "a").
Proof.
  split.
  - apply (proj1 (find_routes_between_directed Examples.abc "a" "A")). reflexivity.
  - apply (proj2 (find_routes_between_directed Examples.abc "a" "c") 100%Z).
    now left.
Defined.

(** Ranking the trips found between two stops: when [evaluate_routes]
    returns, every entry is one of the trips found and no trip is listed
    twice. *)
Theorem evaluate_found_routes {coord : Type} `{PyFloat coord}
    (upstream : nat -> coord -> coord -> Outcome)
    (g : App.Gtfs coord) (a b : string) (s : App.AppState) :
  match fst (App.evaluate_routes upstream g (App.find_routes_between g a b) s) with
  | Ok scores =>
      NoDup (map App.trip_id scores) /\
      Forall (fun sc => In (App.trip_id sc) (App.find_routes_between g a b)) scores
  | Raise _ => True
  end.
Proof.
  unfold App.evaluate_routes, bind.
  destruct (App.collect_scores upstream g (App.find_routes_between g a b) s)
    as [[scs|e] s1] eqn:E; [|exact I].
  cbn [fst modify ret].
  destruct (collect_scores_inv upstream g _ _ _ _ E) as [Hsub _].
  pose proof (py_sorted_perm Qle_bool App.est_delay_min scs) as Hperm.
  pose proof (ascending_NoDup _ (find_routes_between_sorted g a b)) as Hnd.
  split.
  - rewrite Hperm. eapply sublist_NoDup; eassumption.
  - apply List.Forall_forall. intros sc Hsc.
    apply (Permutation_in _ Hperm) in Hsc.
    apply list_elem_of_In. eapply elem_of_sublist; [|exact Hsub].
    apply list_elem_of_In. now apply in_map.
Qed.

(* ===================================================================== *)
(** * traffic_collector.py: bounds on a poll, the collection run          *)
(* ===================================================================== *)

Section PollFacts.
Context {coord : Type}.
Variable net : nat -> Collector.Url coord -> Outcome.
Variable utcnow : nat -> Z.
Variable api_key : option string.
Import Collector.

Lemma after_refl (w : World coord) : after 0 0 0 w w.
Proof.
  unfold after. repeat split; try lia. exists []. rewrite app_nil_r.
  repeat split; [constructor | simpl; lia].
Qed.

Lemma after_trans r1 z1 c1 r2 z2 c2 (w w1 w2 : World coord) :
  after r1 z1 c1 w w1 -> after r2 z2 c2 w1 w2 ->
  after (r1 + r2) (z1 + z2) (c1 + c2) w w2.
Proof.
  intros (Hr & (e1 & Hs1 & Hp1 & Hz1) & Hc & Ht) (Hr' & (e2 & Hs2 & Hp2 & Hz2) & Hc' & Ht').
  unfold after. split; [lia|]. split.
  - exists (e1 ++ e2). rewrite Hs2, Hs1, app_assoc. split; [reflexivity|].
    split; [now apply List.Forall_app|].
    rewrite fold_right_app.
    assert (Hsum : forall (l : list Z) (a : Z),
               fold_right Z.add a l = (fold_right Z.add 0 l + a)%Z).
    { induction l as [|x l IH]; intros a; simpl; [lia|]. rewrite IH. lia. }
    rewrite Hsum. lia.
  - split; [lia | congruence].
Qed.

Lemma after_weaken r z c r' z' c' (w w' : World coord) :
  after r z c w w' -> (r <= r')%nat -> (z <= z')%Z -> (c <= c')%nat -> after r' z' c' w w'.
Proof.
  intros (Hr & (e & Hs & Hp & Hz) & Hc & Ht) ? ? ?. unfold after.
  split; [lia|]. split; [exists e; repeat split; auto; lia|]. split; [lia | exact Ht].
Qed.

Lemma requested_after (w : World coord) : after 1 0 0 w (requested w).
Proof.
  unfold after, requested. simpl. repeat split; try lia.
  exists []. rewrite app_nil_r. repeat split; [constructor | simpl; lia].
Qed.

Lemma backoff_after (attempt : nat) (w : World coord) :
  exists w', backoff attempt w = (Ok tt, w') /\
             after 0 (backoff_budget [attempt]) 0 w w'.
Proof.
  unfold backoff, backoff_budget. cbn [map fold_right].
  destruct (attempt <? MAX_RETRIES - 1)%nat.
  - eexists. split; [reflexivity|]. unfold after. simpl. repeat split; try lia.
    eexists. split; [reflexivity|]. split; [repeat constructor; lia | simpl; lia].
  - eexists. split; [reflexivity|]. apply after_refl.
Qed.

Lemma backoff_budget_cons (attempt : nat) (later : list nat) :
  backoff_budget (attempt :: later) = (backoff_budget [attempt] + backoff_budget later)%Z.
Proof. unfold backoff_budget. cbn [map fold_right]. lia. Qed.

Lemma backoff_budget_nonneg (attempts : list nat) : (0 <= backoff_budget attempts)%Z.
Proof.
  induction attempts as [|a l IH]; [reflexivity|].
  rewrite backoff_budget_cons. unfold backoff_budget at 1. cbn [map fold_right].
  destruct (a <? MAX_RETRIES - 1)%nat; lia.
Qed.

Lemma incident_attempts_after (la lo : coord) (radius_km : Z) (attempts : list nat)
    (w : World coord) :
  exists n w', incident_attempts net la lo radius_km attempts w = (Ok n, w') /\
               (0 <= n)%Z /\
               after (length attempts) (backoff_budget attempts) 0 w w'.
Proof.
  revert w. induction attempts as [|attempt later IH]; intros w; cbn [incident_attempts].
  - exists 0%Z, w. split; [reflexivity|]. split; [lia | apply after_refl].
  - unfold bind at 1, http_get.
    assert (Hnext : exists n w',
               bind (backoff attempt)
                    (fun _ => incident_attempts net la lo radius_km later) (requested w)
               = (Ok n, w') /\ (0 <= n)%Z /\
               after (length (attempt :: later)) (backoff_budget (attempt :: later)) 0 w w').
    { unfold bind. destruct (backoff_after attempt (requested w)) as (w1 & -> & Hb).
      destruct (IH w1) as (n & w2 & -> & Hn & Ha).
      exists n, w2. split; [reflexivity|]. split; [exact Hn|].
      rewrite backoff_budget_cons.
      pose proof (after_trans _ _ _ _ _ _ _ _ _
                    (after_trans _ _ _ _ _ _ _ _ _ (requested_after w) Hb) Ha) as Hall.
      eapply after_weaken; [exact Hall | simpl; lia | lia | lia]. }
    assert (Hstop : forall n, (0 <= n)%Z ->
               exists n' w', (Ok n, requested w) = (Ok n', w') /\ (0 <= n')%Z /\
               after (length (attempt :: later)) (backoff_budget (attempt :: later)) 0 w w').
    { intros n Hn. exists n, (requested w). split; [reflexivity|]. split; [exact Hn|].
      eapply after_weaken; [apply requested_after | simpl; lia | | lia].
      apply backoff_budget_nonneg. }
    destruct (net (requests w) (IncidentUrl la lo radius_km)) as [st doc| |].
    + destruct (st =? 200)%Z; [|exact Hnext]. unfold ret. apply Hstop. lia.
    + exact Hnext.
    + unfold ret. now apply Hstop.
Qed.

Lemma flow_attempts_after (point : RoutePoint coord) (attempts : list nat)
    (w : World coord) :
  exists r w', flow_attempts net utcnow point attempts w = (Ok r, w') /\
               after (length attempts + MAX_RETRIES)
                     (backoff_budget attempts + backoff_budget (seq 0 MAX_RETRIES)) 1 w w' /\
               (forall row, r = Some row ->
                            Db.point_name row = name point /\
                            Db.latitude row = lat point /\
                            Db.longitude row = lon point /\
                            (0 <= Db.traffic_incidents row)%Z).
Proof.
  revert w. induction attempts as [|attempt later IH]; intros w; cbn [flow_attempts].
  - exists None, w. split; [reflexivity|]. split; [|discriminate].
    eapply after_weaken; [apply after_refl | lia | | lia].
    pose proof (backoff_budget_nonneg (seq 0 MAX_RETRIES)). cbn [backoff_budget map fold_right].
    lia.
  - unfold bind at 1, http_get.
    assert (Hnext : exists r w',
               bind (backoff attempt) (fun _ => flow_attempts net utcnow point later)
                    (requested w) = (Ok r, w') /\
               after (length (attempt :: later) + MAX_RETRIES)
                     (backoff_budget (attempt :: later) + backoff_budget (seq 0 MAX_RETRIES))
                     1 w w' /\
               (forall row, r = Some row ->
                            Db.point_name row = name point /\
                            Db.latitude row = lat point /\
                            Db.longitude row = lon point /\
                            (0 <= Db.traffic_incidents row)%Z)).
    { unfold bind. destruct (backoff_after attempt (requested w)) as (w1 & -> & Hb).
      destruct (IH w1) as (r & w2 & -> & Ha & Hrow).
      exists r, w2. split; [reflexivity|]. split; [|exact Hrow].
      rewrite backoff_budget_cons.
      pose proof (after_trans _ _ _ _ _ _ _ _ _
                    (after_trans _ _ _ _ _ _ _ _ _ (requested_after w) Hb) Ha) as Hall.
      eapply after_weaken; [exact Hall | simpl; lia | lia | lia]. }
    assert (Hstop : exists r w',
               (Ok (@None (Db.Sample coord)), requested w) = (Ok r, w') /\
               after (length (attempt :: later) + MAX_RETRIES)
                     (backoff_budget (attempt :: later) + backoff_budget (seq 0 MAX_RETRIES))
                     1 w w' /\
               (forall row, r = Some row ->
                            Db.point_name row = name point /\
                            Db.latitude row = lat point /\
                            Db.longitude row = lon point /\
                            (0 <= Db.traffic_incidents row)%Z)).
    { exists None, (requested w). split; [reflexivity|]. split; [|discriminate].
      eapply after_weaken; [apply requested_after | simpl; lia | | lia].
      pose proof (backoff_budget_nonneg (attempt :: later)).
      pose proof (backoff_budget_nonneg (seq 0 MAX_RETRIES)). lia. }
    destruct (net (requests w) (FlowUrl (lat point) (lon point))) as [st doc| |].
    + destruct (st =? 200)%Z; [|exact Hnext].
      assert (Hn : exists n w1,
                 (match flowSegmentData doc with
                  | Some _ => _get_incident_count net (lat point) (lon point) 2
                  | None => ret 0%Z
                  end) (requested w) = (Ok n, w1) /\ (0 <= n)%Z /\
                 after MAX_RETRIES (backoff_budget (seq 0 MAX_RETRIES)) 0 (requested w) w1).
      { destruct (flowSegmentData doc).
        - destruct (incident_attempts_after (lat point) (lon point) 2 (seq 0 MAX_RETRIES)
                      (requested w)) as (n & w1 & E & Hn & Ha).
          exists n, w1. split; [exact E|]. split; [exact Hn|].
          now rewrite length_seq in Ha.
        - exists 0%Z, (requested w). split; [reflexivity|]. split; [lia|].
          eapply after_weaken; [apply after_refl | lia | | lia].
          apply backoff_budget_nonneg. }
      destruct Hn as (n & w1 & En & Hn & Ha).
      unfold bind at 1. rewrite En. unfold bind, read_clock, ret.
      eexists _, _. split; [reflexivity|]. split.
      * pose proof (after_trans _ _ _ _ _ _ _ _ _ (requested_after w) Ha) as Hall.
        destruct Hall as (Hr & (e & Hs & Hp & Hz) & Hc & Ht).
        pose proof (backoff_budget_nonneg (attempt :: later)).
        unfold after. cbn [requests sleeps clock_reads traffic_data length].
        split; [lia|]. split; [exists e; repeat split; auto; lia|].
        split; [lia | exact Ht].
      * intros row [= <-]. cbn. auto.
    + exact Hnext.
    + unfold ret. exact Hstop.
Qed.

(** One poll of a point makes at most 6 requests (3 for the flow, 3 for
    the incidents), sleeps at most 6 seconds in all, reads the clock at
    most once and writes nothing to the table; it never raises, and a
    sample it returns carries the name and coordinates of the point and a
    count that is not negative. *)
Lemma get_traffic_data_after (point : RoutePoint coord) (w : World coord) :
  exists r w', get_traffic_data net utcnow api_key point w = (Ok r, w') /\
               after 6 6 1 w w' /\
               (forall row, r = Some row ->
                            Db.point_name row = name point /\
                            Db.latitude row = lat point /\
                            Db.longitude row = lon point /\
                            (0 <= Db.traffic_incidents row)%Z).
Proof.
  unfold get_traffic_data. destruct (key_set api_key).
  - destruct (flow_attempts_after point (seq 0 MAX_RETRIES) w) as (r & w' & E & Ha & Hrow).
    exists r, w'. split; [exact E|]. split; [|exact Hrow].
    eapply after_weaken; [exact Ha | reflexivity | vm_compute; discriminate | lia].
  - exists None, w. split; [reflexivity|]. split; [|discriminate].
    eapply after_weaken; [apply after_refl | lia | lia | lia].
Qed.

End PollFacts.

(** One poll of a point makes at most 6 requests (3 for the flow, 3 for
    the incidents), sleeps at most 6 seconds in all, reads the clock at
    most once and writes nothing to the table; it never raises, and a
    sample it returns carries the name and coordinates of the point and an
    incident count that is not negative. *)
Theorem get_traffic_data_bounded {coord : Type}
    (net : nat -> Collector.Url coord -> Outcome) (utcnow : nat -> Z)
    (api_key : option string) (point : Collector.RoutePoint coord)
    (w : Collector.World coord) :
  exists r w',
    Collector.get_traffic_data net utcnow api_key point w = (Ok r, w') /\
    (Collector.requests w <= Collector.requests w' <= Collector.requests w + 6)%nat /\
    (Collector.total_sleep w <= Collector.total_sleep w' <= Collector.total_sleep w + 6)%Z /\
    (Collector.clock_reads w' <= Collector.clock_reads w + 1)%nat /\
    Collector.traffic_data w' = Collector.traffic_data w /\
    match r with
    | Some row =>
        Db.point_name row = Collector.name point /\
        Db.latitude row = Collector.lat point /\
        Db.longitude row = Collector.lon point /\
        (0 <= Db.traffic_incidents row)%Z
    | None => True
    end.
Proof.
  destruct (get_traffic_data_after net utcnow api_key point w) as (r & w' & E & Ha & Hrow).
  exists r, w'. split; [exact E|].
  destruct Ha as (Hr & (e & Hs & Hp & Hz) & Hc & Ht).
  split; [exact Hr|]. split.
  - unfold Collector.total_sleep. rewrite Hs.
    assert (Hsum : forall l : list Z,
               fold_right Z.add 0%Z (l ++ e)
               = (fold_right Z.add 0 l + fold_right Z.add 0 e)%Z).
    { induction l as [|x l IH]; simpl; [lia|]. rewrite IH. lia. }
    rewrite Hsum.
    assert (Hpos : (0 <= fold_right Z.add 0 e)%Z).
    { clear -Hp. induction Hp; simpl; lia. }
    lia.
  - split; [lia|]. split; [exact Ht|].
    destruct r as [row|]; [now apply Hrow | exact I].
Qed.


(** Without an API key a collection run asks nothing and saves nothing:
    it counts 0 successful points, after sleeping one second per point. *)
Theorem collect_data_without_key {coord : Type}
    (net : nat -> Collector.Url coord -> Outcome) (utcnow : nat -> Z)
    (api_key : option string) (points : list (Collector.RoutePoint coord))
    (w : Collector.World coord) :
  Collector.key_set api_key = false ->
  Collector.collect_data net utcnow api_key points w =
  (Ok 0%nat,
   {| Collector.requests := Collector.requests w;
      Collector.clock_reads := Collector.clock_reads w;
      Collector.sleeps := Collector.sleeps w ++ repeat 1%Z (length points);
      Collector.traffic_data := Collector.traffic_data w |}).
Proof.
  intros Hkey. unfold Collector.collect_data. revert w.
  induction points as [|point rest IH]; intros w; cbn [Collector.collect_points].
  - unfold ret. cbn [length repeat]. rewrite app_nil_r. now destruct w.
  - unfold bind at 1, Collector.get_traffic_data. rewrite Hkey. unfold ret.
    unfold bind, Collector.sleep, modify. rewrite IH.
    cbn [Collector.requests Collector.clock_reads Collector.sleeps Collector.traffic_data
         length repeat].
    now rewrite <- app_assoc.
Qed.

Lemma collect_data_without_key_witness :
  Collector.collect_data Examples.incidents_none Examples.clock (Some EmptyString)
    [Examples.mg_road; Examples.silk_board] Examples.world0 =
  (Ok 0%nat,
   {| Collector.requests := 0; Collector.clock_reads := 0;
      Collector.sleeps := [1; 1]%Z; Collector.traffic_data := [] |}).
Proof.
  apply (collect_data_without_key Examples.incidents_none Examples.clock (Some EmptyString)
           [Examples.mg_road; Examples.silk_board] Examples.world0).
  reflexivity.
Defined.

(** An exception other than a [RequestException] ends a flow query at
    once: one request, no sleep, no further attempt, no sample. *)
Theorem get_traffic_data_other_exception {coord : Type}
    (net : nat -> Collector.Url coord -> Outcome) (utcnow : nat -> Z)
    (api_key : option string) (point : Collector.RoutePoint coord)
    (w : Collector.World coord) :
  Collector.key_set api_key = true ->
  net (Collector.requests w)
      (Collector.FlowUrl (Collector.lat point) (Collector.lon point)) = OtherException ->
  Collector.get_traffic_data net utcnow api_key point w =
  (Ok None,
   {| Collector.requests := S (Collector.requests w);
      Collector.clock_reads := Collector.clock_reads w;
      Collector.sleeps := Collector.sleeps w;
      Collector.traffic_data := Collector.traffic_data w |}).
Proof.
  intros Hkey Hnet. unfold Collector.get_traffic_data. rewrite Hkey.
  change (seq 0 Collector.MAX_RETRIES) with [0; 1; 2]%nat.
  cbn [Collector.flow_attempts]. unfold bind, Collector.http_get. now rewrite Hnet.
Qed.

Lemma get_traffic_data_other_exception_witness :
  Collector.get_traffic_data Examples.broken Examples.clock (Some "key")
    Examples.mg_road Examples.world0 =
  (Ok None,
   {| Collector.requests := 1; Collector.clock_reads := 0;
      Collector.sleeps := []; Collector.traffic_data := [] |}).
Proof.
  apply (get_traffic_data_other_exception Examples.broken Examples.clock (Some "key")
           Examples.mg_road Examples.world0); reflexivity.
Defined.

(** A 200 response without [flowSegmentData] still makes a sample: both
    speeds are [None], the incident count is 0 and the incident endpoint
    is not asked; the sample is persisted like any other. *)
Theorem get_traffic_data_without_segment {coord : Type}
    (net : nat -> Collector.Url coord -> Outcome) (utcnow : nat -> Z)
    (api_key : option string) (point : Collector.RoutePoint coord)
    (w : Collector.World coord) (doc : JsonDoc) :
  Collector.key_set api_key = true ->
  net (Collector.requests w)
      (Collector.FlowUrl (Collector.lat point) (Collector.lon point)) = Response 200 doc ->
  flowSegmentData doc = None ->
  exists row w1 w2,
    Collector.get_traffic_data net utcnow api_key point w = (Ok (Some row), w1) /\
    Db.current_speed row = None /\ Db.free_flow_speed row = None /\
    Db.traffic_incidents row = 0%Z /\
    Collector.requests w1 = S (Collector.requests w) /\
    Collector.sleeps w1 = Collector.sleeps w /\
    Collector.save_traffic_data (Some row) w1 = (Ok tt, w2) /\
    Collector.traffic_data w2 = Collector.traffic_data w ++ [row].
Proof.
  intros Hkey Hnet Hseg. unfold Collector.get_traffic_data. rewrite Hkey.
  change (seq 0 Collector.MAX_RETRIES) with [0; 1; 2]%nat.
  cbn [Collector.flow_attempts]. unfold bind at 1, Collector.http_get. rewrite Hnet.
  change (200 =? 200)%Z with true. cbv iota. rewrite Hseg.
  unfold bind, ret, Collector.read_clock. cbn.
  eexists _, _, _. repeat split.
Qed.

Lemma get_traffic_data_without_segment_witness :
  exists row w1 w2,
    Collector.get_traffic_data Examples.hollow Examples.clock (Some "key")
      Examples.mg_road Examples.world0 = (Ok (Some row), w1) /\
    Db.current_speed row = None /\ Db.free_flow_speed row = None /\
    Db.traffic_incidents row = 0%Z /\
    Collector.requests w1 = S (Collector.requests Examples.world0) /\
    Collector.sleeps w1 = Collector.sleeps Examples.world0 /\
    Collector.save_traffic_data (Some row) w1 = (Ok tt, w2) /\
    Collector.traffic_data w2 = Collector.traffic_data Examples.world0 ++ [row].
Proof.
  apply (get_traffic_data_without_segment Examples.hollow Examples.clock (Some "key")
           Examples.mg_road Examples.world0 Examples.no_doc); reflexivity.
Defined.

(** The retry loop of the flow query, the bounding box of the incident
    query taken as given. *)
Lemma flow_query_recovers {coord : Type}
    (net : nat -> Collector.Url coord -> Outcome) (utcnow : nat -> Z)
    (api_key : option string) (point : Collector.RoutePoint coord)
    (w : Collector.World coord) (k : nat) (doc : JsonDoc) :
  Collector.key_set api_key = true ->
  (k < Collector.MAX_RETRIES)%nat ->
  (forall i, (i < k)%nat ->
             Collector.retryable
               (net (i + Collector.requests w)%nat
                    (Collector.FlowUrl (Collector.lat point) (Collector.lon point)))) ->
  net (k + Collector.requests w)%nat
      (Collector.FlowUrl (Collector.lat point) (Collector.lon point)) = Response 200 doc ->
  exists row w' later,
    Collector.get_traffic_data net utcnow api_key point w = (Ok (Some row), w') /\
    Db.current_speed row =
      from_option (fun seg => field_get (currentSpeed seg)) None (flowSegmentData doc) /\
    Db.free_flow_speed row =
      from_option (fun seg => field_get (freeFlowSpeed seg)) None (flowSegmentData doc) /\
    Collector.sleeps w' =
      Collector.sleeps w ++ map (fun i => (Z.of_nat i + 1)%Z) (seq 0 k) ++ later.
Proof.
  intros Hkey Hk Hretry H200.
  assert (Hfinal : forall (w0 : Collector.World coord) attempt rest,
             net (Collector.requests w0)
                 (Collector.FlowUrl (Collector.lat point) (Collector.lon point))
             = Response 200 doc ->
             exists row w' later,
               Collector.flow_attempts net utcnow point (attempt :: rest) w0
               = (Ok (Some row), w') /\
               Db.current_speed row =
                 from_option (fun seg => field_get (currentSpeed seg)) None
                             (flowSegmentData doc) /\
               Db.free_flow_speed row =
                 from_option (fun seg => field_get (freeFlowSpeed seg)) None
                             (flowSegmentData doc) /\
               Collector.sleeps w' = Collector.sleeps w0 ++ later).
  { intros w0 attempt rest Hnet.
    destruct (flow_attempts_200 net utcnow point attempt rest w0 doc Hnet)
      as (n & w1 & En & _ & _ & E).
    assert (Hs : exists later, Collector.sleeps w1 = Collector.sleeps w0 ++ later).
    { destruct (flowSegmentData doc).
      - destruct (incident_attempts_after net (Collector.lat point) (Collector.lon point) 2
                    (seq 0 Collector.MAX_RETRIES) (Collector.requested w0))
          as (n' & w1' & En' & _ & _ & (e & Hs & _) & _).
        unfold Collector._get_incident_count in En. rewrite En' in En.
        injection En as _ <-. exists e. exact Hs.
      - unfold ret in En. injection En as _ <-. exists []. now rewrite app_nil_r. }
    destruct Hs as (later & Hs). rewrite E. eexists _, _, later.
    split; [reflexivity|]. split; [reflexivity|]. split; [reflexivity | exact Hs]. }
  unfold Collector.get_traffic_data. rewrite Hkey.
  change (seq 0 Collector.MAX_RETRIES) with [0; 1; 2]%nat.
  unfold Collector.MAX_RETRIES in Hk.
  destruct k as [|[|[|k]]]; [| | |lia].
  - destruct (Hfinal w 0%nat [1; 2]%nat H200) as (row & w' & later & E & Hc & Hf & Hs).
    exists row, w', later. auto.
  - rewrite flow_attempts_retry by (apply (Hretry 0%nat); lia).
    unfold bind at 1. cbn [Collector.backoff Nat.ltb Nat.leb Collector.MAX_RETRIES Nat.sub].
    unfold Collector.sleep, modify.
    match goal with |- context [Collector.flow_attempts _ _ _ _ ?w1] =>
      destruct (Hfinal w1 1%nat [2]%nat H200) as (row & w' & later & E & Hc & Hf & Hs)
    end.
    exists row, w', later. rewrite E. cbn in Hs.
    repeat split; auto. rewrite Hs, <- app_assoc. reflexivity.
  - rewrite flow_attempts_retry by (apply (Hretry 0%nat); lia).
    unfold bind at 1. cbn [Collector.backoff Nat.ltb Nat.leb Collector.MAX_RETRIES Nat.sub].
    unfold Collector.sleep, modify.
    rewrite flow_attempts_retry by (apply (Hretry 1%nat); lia).
    unfold bind at 1. cbn [Collector.backoff Nat.ltb Nat.leb Collector.MAX_RETRIES Nat.sub].
    unfold Collector.sleep, modify.
    match goal with |- context [Collector.flow_attempts _ _ _ _ ?w1] =>
      destruct (Hfinal w1 2%nat []%nat H200) as (row & w' & later & E & Hc & Hf & Hs)
    end.
    exists row, w', later. rewrite E. cbn in Hs.
    repeat split; auto. rewrite Hs, <- !app_assoc. reflexivity.
Qed.

(** A flow query recovers from failures that are retried.  For a point
    whose bounding box can be computed (any point off the equator): when
    the first [k] attempts (k below MAX_RETRIES) end in a status other than
    200 or a [RequestException] and the next one is answered 200, the query
    returns a sample with the speeds of that answer, after sleeping
    1, ..., k seconds between the attempts. *)
Theorem get_traffic_data_recovers
    (net : nat -> Collector.Url Q -> Outcome) (utcnow : nat -> Z)
    (api_key : option string) (point : Collector.RoutePoint Q)
    (w : Collector.World Q) (k : nat) (doc : JsonDoc) :
  Collector.key_set api_key = true ->
  (exists box, Collector._calculate_bounding_box
                 (Collector.lat point) (Collector.lon point) 2 = Ok box) ->
  (k < Collector.MAX_RETRIES)%nat ->
  (forall i, (i < k)%nat ->
             Collector.retryable
               (net (i + Collector.requests w)%nat
                    (Collector.FlowUrl (Collector.lat point) (Collector.lon point)))) ->
  net (k + Collector.requests w)%nat
      (Collector.FlowUrl (Collector.lat point) (Collector.lon point)) = Response 200 doc ->
  exists row w' later,
    Collector.get_traffic_data net utcnow api_key point w = (Ok (Some row), w') /\
    Db.current_speed row =
      from_option (fun seg => field_get (currentSpeed seg)) None (flowSegmentData doc) /\
    Db.free_flow_speed row =
      from_option (fun seg => field_get (freeFlowSpeed seg)) None (flowSegmentData doc) /\
    Collector.sleeps w' =
      Collector.sleeps w ++ map (fun i => (Z.of_nat i + 1)%Z) (seq 0 k) ++ later.
Proof.
  intros Hkey _ Hk Hretry H200.
  exact (flow_query_recovers net utcnow api_key point w k doc Hkey Hk Hretry H200).
Qed.

Lemma get_traffic_data_recovers_witness :
  exists row w' later,
    Collector.get_traffic_data Examples.flaky Examples.clock (Some "key")
      Examples.mg_road Examples.world0 = (Ok (Some row), w') /\
    Db.current_speed row =
      from_option (fun seg => field_get (currentSpeed seg)) None
                  (flowSegmentData (Examples.flow_doc 20 40)) /\
    Db.free_flow_speed row =
      from_option (fun seg => field_get (freeFlowSpeed seg)) None
                  (flowSegmentData (Examples.flow_doc 20 40)) /\
    Collector.sleeps w' =
      Collector.sleeps Examples.world0
      ++ map (fun i => (Z.of_nat i + 1)%Z) (seq 0 2) ++ later.
Proof.
  apply (get_traffic_data_recovers Examples.flaky Examples.clock (Some "key")
           Examples.mg_road Examples.world0 2 (Examples.flow_doc 20 40)).
  - reflexivity.
  - eexists. reflexivity.
  - unfold Collector.MAX_RETRIES. lia.
  - intros [|[|i]] Hi; [simpl; discriminate | simpl; discriminate | lia].
  - reflexivity.
Defined.

(** The bounding box of an incident query.  At latitude 0 the longitude
    divisor is zero and the computation raises.  Elsewhere the box is
    centred on the point, [2 * radius / 111] degrees high, and
    [90 / |lat|] times as wide in longitude as it is high; with a
    non-negative radius it contains the point. *)
Theorem _calculate_bounding_box_shape (lat lon : Q) (radius_km : Z) :
  ((lat == 0)%Q ->
   Collector._calculate_bounding_box lat lon radius_km = Raise "ZeroDivisionError") /\
  (~ (lat == 0)%Q ->
   exists min_lon min_lat max_lon max_lat,
     Collector._calculate_bounding_box lat lon radius_km
     = Ok (min_lon, min_lat, max_lon, max_lat) /\
     (min_lat + max_lat == 2 * lat)%Q /\
     (min_lon + max_lon == 2 * lon)%Q /\
     (max_lat - min_lat == 2 * (inject_Z radius_km / 111))%Q /\
     ((max_lon - min_lon) * Qabs lat == 90 * (max_lat - min_lat))%Q /\
     ((0 <= radius_km)%Z ->
      (min_lat <= lat <= max_lat)%Q /\ (min_lon <= lon <= max_lon)%Q)).
Proof.
  unfold Collector._calculate_bounding_box. split.
  - intros Hz.
    assert (E : Qeq_bool (111 * Qabs lat / 90) 0 = true).
    { apply Qeq_bool_iff. rewrite Hz. reflexivity. }
    now rewrite E.
  - intros Hnz.
    assert (Habs : (0 < Qabs lat)%Q).
    { destruct (Qlt_le_dec 0 (Qabs lat)) as [Hlt|Hle]; [exact Hlt|].
      exfalso. apply Hnz.
      pose proof (Qabs_nonneg lat) as Hge.
      assert (Hzero : (Qabs lat == 0)%Q) by (now apply Qle_antisym).
      apply Qabs_Qle_condition in Hle as [Hlo Hhi].
      apply Qle_antisym; [exact Hhi | exact Hlo]. }
    assert (Hdiv : ~ (111 * Qabs lat / 90 == 0)%Q).
    { intros Hd. assert (Hp : (0 < 111 * Qabs lat / 90)%Q).
      { apply Qlt_shift_div_l; [reflexivity|]. lra. }
      rewrite Hd in Hp. now apply Qlt_irrefl in Hp. }
    assert (E : Qeq_bool (111 * Qabs lat / 90) 0 = false).
    { destruct (Qeq_bool (111 * Qabs lat / 90) 0) eqn:E; [|reflexivity].
      apply Qeq_bool_iff in E. contradiction. }
    rewrite E. eexists _, _, _, _. split; [reflexivity|].
    assert (Hnabs : ~ (Qabs lat == 0)%Q).
    { intros Hd. rewrite Hd in Habs. now apply Qlt_irrefl in Habs. }
    split; [ring|]. split; [ring|]. split; [ring|].
    split; [field; exact Hnabs|].
    intros Hr.
    assert (Hlat : (0 <= inject_Z radius_km / 111)%Q).
    { apply Qle_shift_div_l; [reflexivity|]. rewrite Qmult_0_l.
      change 0%Q with (inject_Z 0). now rewrite <- Zle_Qle. }
    assert (Hlon : (0 <= inject_Z radius_km / (111 * Qabs lat / 90))%Q).
    { apply Qle_shift_div_l.
      - apply Qlt_shift_div_l; [reflexivity|]. lra.
      - rewrite Qmult_0_l. change 0%Q with (inject_Z 0). now rewrite <- Zle_Qle. }
    set (a := (inject_Z radius_km / 111)%Q) in *.
    set (b := (inject_Z radius_km / (111 * Qabs lat / 90))%Q) in *.
    split; split; lra.
Qed.

Lemma _calculate_bounding_box_shape_witness :
  Collector._calculate_bounding_box 0 (776045 # 10000) 2 = Raise "ZeroDivisionError" /\
  exists min_lon min_lat max_lon max_lat,
    Collector._calculate_bounding_box (129758 # 10000) (776045 # 10000) 2
    = Ok (min_lon, min_lat, max_lon, max_lat) /\
    (min_lat + max_lat == 2 * (129758 # 10000))%Q /\
    (min_lon + max_lon == 2 * (776045 # 10000))%Q /\
    (max_lat - min_lat == 2 * (inject_Z 2 / 111))%Q /\
    ((max_lon - min_lon) * Qabs (129758 # 10000) == 90 * (max_lat - min_lat))%Q /\
    (min_lat <= 129758 # 10000 <= max_lat)%Q /\
    (min_lon <= 776045 # 10000 <= max_lon)%Q.
Proof.
  split.
  - apply (proj1 (_calculate_bounding_box_shape 0 (776045 # 10000) 2)). reflexivity.
  - destruct (proj2 (_calculate_bounding_box_shape (129758 # 10000) (776045 # 10000) 2))
      as (a & b & c & d & E & H1 & H2 & H3 & H4 & H5); [discriminate|].
    exists a, b, c, d. split; [exact E|].
    split; [exact H1|]. split; [exact H2|]. split; [exact H3|]. split; [exact H4|].
    apply H5. lia.
Defined.

(* ===================================================================== *)
(** * traffic_alerts.py: shape of the alerts, the window, the tables      *)
(* ===================================================================== *)

Lemma min100_le_self (x : Q) : (Alerts.min100 x <= x)%Q.
Proof.
  unfold Alerts.min100. destruct (Qltb x 100) eqn:E; [apply Qle_refl|].
  now apply Qltb_ge in E.
Qed.

Lemma max0_ge_80 (y : Q) : (80 <= max0 y)%Q -> (80 <= y)%Q.
Proof. unfold max0. destruct (Qltb 0 y); [auto|]. intros Hle. lra. Qed.


Section AlertShape.
Context {coord : Type}.
Import Alerts Db.

Implicit Types row : Sample coord.

Lemma speed_ratio_pos row (r : Q) : speed_ratio row = Some r -> (0 < r)%Q.
Proof.
  intros Hr. apply speed_ratio_Some in Hr as (cs & ffs & _ & _ & Hc & Hf & ->).
  apply Qlt_shift_div_l; [exact Hf|]. now rewrite Qmult_0_l.
Qed.

Lemma congestion_ratio row :
  (80 <= traffic_index (current_speed row) (free_flow_speed row))%Q ->
  exists r, speed_ratio row = Some r /\ (0 < r)%Q /\ (r <= 2 # 10)%Q.
Proof.
  rewrite traffic_index_ratio. destruct (speed_ratio row) as [r|] eqn:Er; [|intros; lra].
  intros Hle. apply max0_ge_80 in Hle.
  pose proof (min100_le_self (100 * (1 - r))) as Hm.
  exists r. split; [reflexivity|]. split; [now apply (speed_ratio_pos row)|]. lra.
Qed.
End AlertShape.

(** A row that raises CONGESTION also raises SPEED_REDUCTION: an index of
    at least 80 means a ratio of at most 0.2, which is below the 0.4 of
    the speed rule. *)
Theorem congestion_implies_speed_reduction {coord : Type} (row : Db.Sample coord) :
  Alerts.raises Alerts.CONGESTION row -> Alerts.raises Alerts.SPEED_REDUCTION row.
Proof.
  rewrite !raises_iff. intros [[_ Hle] | [[[=] _] | [[=] _]]].
  destruct (congestion_ratio row Hle) as (r & Hr & _ & H2).
  right; right. split; [reflexivity|]. exists r. split; [exact Hr | lra].
Qed.

Lemma congestion_implies_speed_reduction_witness :
  Alerts.raises Alerts.SPEED_REDUCTION (Examples.reading (Some 10%Q) (Some 50%Q) 0).
Proof.
  apply (congestion_implies_speed_reduction (Examples.reading (Some 10%Q) (Some 50%Q) 0)).
  now left.
Defined.


Section TableFacts.
Import Alerts.

Lemma flagged_from_refl (r : AlertRow) : flagged_from r r.
Proof. unfold flagged_from. auto 10. Qed.

Lemma mark_notified_flags (t : Z) (a : Alert) (rows rows' : list AlertRow) :
  Forall2 flagged_from rows rows' ->
  Forall2 flagged_from rows (mark_notified t a rows').
Proof.
  induction 1 as [|r r' rows rows' Hr _ IH]; [constructor|].
  cbn [mark_notified map]. constructor; [|exact IH].
  destruct Hr as (H1 & H2 & H3 & H4 & H5 & H6).
  destruct (_ && _); [|unfold flagged_from; auto 10].
  unfold flagged_from. cbn. auto 10.
Qed.

Lemma mark_all_flags (t : Z) (batch : list Alert) (rows rows' : list AlertRow) :
  Forall2 flagged_from rows rows' ->
  Forall2 flagged_from rows (fold_left (fun rs a => mark_notified t a rs) batch rows').
Proof.
  revert rows'. induction batch as [|a batch IH]; intros rows' Hr; [exact Hr|].
  cbn [fold_left]. apply IH. now apply mark_notified_flags.
Qed.

Lemma rows_flagged_refl (rows : list AlertRow) : Forall2 flagged_from rows rows.
Proof. induction rows; constructor; [apply flagged_from_refl | assumption]. Qed.
End TableFacts.

(** Sending the mail never adds, removes or reorders rows of the alert
    table: each row stays as it is except that its [notified] flag may go
    to 1 (it is never reset).  When there is nothing to send, or the SMTP
    session fails, the table and the outbox are untouched and
    [datetime.utcnow()] is not read. *)
Theorem _send_alert_email_only_flags {coord : Type}
    (utcnow : nat -> Z) (smtp_ok : nat -> bool)
    (alerts : list Alerts.Alert) (w : Alerts.World coord) :
  exists w',
    Alerts._send_alert_email utcnow smtp_ok alerts w = (Ok tt, w') /\
    Forall2 Alerts.flagged_from (Alerts.traffic_alerts w) (Alerts.traffic_alerts w') /\
    Alerts.traffic_data w' = Alerts.traffic_data w /\
    (alerts = [] \/ smtp_ok (Alerts.smtp_sessions w) = false ->
     Alerts.traffic_alerts w' = Alerts.traffic_alerts w /\
     Alerts.outbox w' = Alerts.outbox w /\
     Alerts.clock_reads w' = Alerts.clock_reads w).
Proof.
  unfold Alerts._send_alert_email. destruct alerts as [|a rest].
  - exists w. unfold ret. split; [reflexivity|].
    split; [apply rows_flagged_refl|]. auto.
  - unfold bind, Alerts.smtp_send, Alerts.read_clock, Alerts.set_alert_table, modify.
    destruct (smtp_ok (Alerts.smtp_sessions w)) eqn:E.
    + eexists. split; [reflexivity|].
      cbn [Alerts.traffic_alerts Alerts.traffic_data Alerts.outbox Alerts.clock_reads].
      split; [apply mark_all_flags, rows_flagged_refl|].
      split; [reflexivity|]. intros [[=] | [=]].
    + eexists. split; [reflexivity|].
      cbn [Alerts.traffic_alerts Alerts.traffic_data Alerts.outbox Alerts.clock_reads].
      split; [apply rows_flagged_refl|]. auto.
Qed.

Lemma _send_alert_email_only_flags_witness :
  exists w',
    Alerts._send_alert_email Examples.clock Examples.refused Examples.batch
      Examples.alert_world0 = (Ok tt, w') /\
    Alerts.traffic_alerts w' = Alerts.traffic_alerts Examples.alert_world0 /\
    Alerts.outbox w' = Alerts.outbox Examples.alert_world0 /\
    Alerts.clock_reads w' = Alerts.clock_reads Examples.alert_world0.
Proof.
  destruct (_send_alert_email_only_flags Examples.clock Examples.refused Examples.batch
              Examples.alert_world0) as (w' & E & _ & _ & Hfail).
  exists w'. split; [exact E|]. apply Hfail. right. reflexivity.
Defined.

(** A mail that goes out lists every alert of the batch once, in
    descending order of severity, alerts of equal severity in the order
    in which they were raised. *)
Theorem _send_alert_email_mail {coord : Type}
    (utcnow : nat -> Z) (smtp_ok : nat -> bool)
    (alerts : list Alerts.Alert) (w : Alerts.World coord) :
  alerts <> [] ->
  smtp_ok (Alerts.smtp_sessions w) = true ->
  exists mail,
    Alerts.outbox (snd (Alerts._send_alert_email utcnow smtp_ok alerts w))
    = Alerts.outbox w ++ [mail] /\
    Permutation mail alerts /\
    StronglySorted (fun a b => (Alerts.severity b <= Alerts.severity a)%Z) mail /\
    forall k : Z,
      List.filter (fun a => (Alerts.severity a =? k)%Z) mail
      = List.filter (fun a => (Alerts.severity a =? k)%Z) alerts.
Proof.
  intros Hne Hok. destruct alerts as [|a rest]; [contradiction|].
  exists (py_sorted (fun x y => (y <=? x)%Z) Alerts.severity (a :: rest)).
  split.
  { unfold Alerts._send_alert_email, bind, Alerts.smtp_send. rewrite Hok. reflexivity. }
  split; [apply py_sorted_perm|]. split.
  - eapply StronglySorted_weaken;
      [|apply (py_sorted_sorted (fun x y => (y <=? x)%Z) Alerts.severity)].
    + intros x y Hxy. cbv beta in Hxy. lia.
    + intros x y Hxy. lia.
    + intros x y z Hxy Hyz. lia.
  - intros k. apply py_sorted_stable. intros x y Hx Hy. lia.
Qed.

Lemma _send_alert_email_mail_witness :
  exists mail,
    Alerts.outbox (snd (Alerts._send_alert_email Examples.clock Examples.delivered
                          Examples.batch Examples.alert_world0))
    = Alerts.outbox Examples.alert_world0 ++ [mail] /\
    Permutation mail Examples.batch /\
    StronglySorted (fun a b => (Alerts.severity b <= Alerts.severity a)%Z) mail /\
    forall k : Z,
      List.filter (fun a => (Alerts.severity a =? k)%Z) mail
      = List.filter (fun a => (Alerts.severity a =? k)%Z) Examples.batch.
Proof.
  apply (_send_alert_email_mail Examples.clock Examples.delivered Examples.batch
           Examples.alert_world0).
  - intros Hnil. vm_compute in Hnil. discriminate.
  - reflexivity.
Defined.

(** The window of the alert engine: one reading of [datetime.utcnow()];
    the rows returned are exactly the samples stamped after one hour
    before that reading (a sample exactly one hour old is out), newest
    first. *)
Theorem _get_recent_traffic_data_window {coord : Type}
    (utcnow : nat -> Z) (w : Alerts.World coord) :
  let now := utcnow (Alerts.clock_reads w) in
  exists rows w',
    Alerts._get_recent_traffic_data utcnow w = (Ok rows, w') /\
    Alerts.clock_reads w' = S (Alerts.clock_reads w) /\
    Alerts.traffic_alerts w' = Alerts.traffic_alerts w /\
    Alerts.traffic_data w' = Alerts.traffic_data w /\
    Permutation rows
      (List.filter (fun r => (now - Alerts.one_hour <? Db.timestamp r)%Z)
                   (Alerts.traffic_data w)) /\
    (forall r, In r rows <->
               In r (Alerts.traffic_data w) /\ (now - Alerts.one_hour < Db.timestamp r)%Z) /\
    StronglySorted (fun a b => (Db.timestamp b <= Db.timestamp a)%Z) rows.
Proof.
  intros now. unfold Alerts._get_recent_traffic_data, bind, Alerts.read_clock, get_state, ret.
  eexists _, _. split; [reflexivity|]. cbn [Alerts.clock_reads Alerts.traffic_alerts
                                            Alerts.traffic_data].
  split; [reflexivity|]. split; [reflexivity|]. split; [reflexivity|].
  fold now.
  pose proof (py_sorted_perm (fun a b => (b <=? a)%Z) Db.timestamp
                (List.filter (fun r => (now - Alerts.one_hour <? Db.timestamp r)%Z)
                             (Alerts.traffic_data w))) as Hperm.
  split; [exact Hperm|]. split.
  - intros r. split.
    + intros Hin. apply (Permutation_in _ Hperm) in Hin.
      apply List.filter_In in Hin as [Hin Hlt]. split; [exact Hin | lia].
    + intros [Hin Hlt]. apply (Permutation_in _ (Permutation_sym Hperm)).
      apply List.filter_In. split; [exact Hin | lia].
  - eapply StronglySorted_weaken;
      [|apply (py_sorted_sorted (fun x y => (y <=? x)%Z) Db.timestamp)].
    + intros x y Hxy. cbv beta in Hxy. lia.
    + intros x y Hxy. lia.
    + intros x y z Hxy Hyz. lia.
Qed.






(* ===================================================================== *)
(** * traffic_analyzer.py: the index of the worst-routes table            *)
(* ===================================================================== *)

Lemma round_half_even_le (y : Q) (b : Z) :
  (y <= inject_Z b)%Q -> (round_half_even y <= b)%Z.
Proof.
  intros Hy. unfold round_half_even.
  assert (Hf : (Qfloor y <= b)%Z).
  { rewrite <- (Qfloor_Z b). now apply Qfloor_resp_le. }
  assert (Hup : (1 # 2 <= y - inject_Z (Qfloor y))%Q -> (Qfloor y + 1 <= b)%Z).
  { intros Hr. assert (Hlt : (inject_Z (Qfloor y) < inject_Z b)%Q) by lra.
    rewrite <- Zlt_Qlt in Hlt. lia. }
  destruct (Qltb (y - inject_Z (Qfloor y)) (1 # 2)) eqn:E1; [exact Hf|].
  apply Qltb_ge in E1.
  destruct (Qltb (1 # 2) (y - inject_Z (Qfloor y))); [now apply Hup|].
  destruct (Z.even (Qfloor y)); [exact Hf | now apply Hup].
Qed.

(** The index of [get_worst_performing_routes] is rounded to one place
    but not clipped: for a point whose average speed is at least 1 % above
    its average free-flow speed it is -1 or less, where the index of
    [get_traffic_trends] is 0. *)
Theorem worst_traffic_index_unclipped (avg_speed avg_free_flow : Q) :
  (0 < avg_free_flow)%Q ->
  ((101 # 100) * avg_free_flow <= avg_speed)%Q ->
  (Analyzer.worst_traffic_index avg_speed avg_free_flow <= -1)%Q /\
  (Analyzer.traffic_index avg_speed avg_free_flow == 0)%Q.
Proof.
  intros Hf Hs.
  assert (Hr : (101 # 100 <= avg_speed / avg_free_flow)%Q)
    by (now apply Qle_shift_div_l).
  split.
  - unfold Analyzer.worst_traffic_index, Analyzer.round1.
    set (r := (avg_speed / avg_free_flow)%Q) in *.
    assert (Hy : (100 * (1 - r) * 10 <= inject_Z (-10))%Q).
    { change (inject_Z (-10)) with (-10 # 1)%Q. lra. }
    apply round_half_even_le in Hy.
    apply Qle_shift_div_r; [reflexivity|].
    rewrite Zle_Qle in Hy.
    change (inject_Z (-10)) with (-10 # 1)%Q in Hy. lra.
  - unfold Analyzer.traffic_index, Analyzer.clip.
    set (r := (avg_speed / avg_free_flow)%Q) in *.
    destruct (Qltb (100 * (1 - r)) 0) eqn:E; [reflexivity|].
    apply Qltb_ge in E. lra.
Qed.

Lemma worst_traffic_index_unclipped_witness :
  (Analyzer.worst_traffic_index 60 40 <= -1)%Q /\ (Analyzer.traffic_index 60 40 == 0)%Q.
Proof.
  apply (worst_traffic_index_unclipped 60 40); [reflexivity | discriminate].
Defined.
